(** * Transliteration and NER API: a model of [main.py]

    The service is a thin adapter around an external text-completion
    oracle.  This development embeds the request handlers of [main.py],
    the start-up configuration checks and the reply-parsing fallback of
    the [/ner] endpoint, and states the behaviour of the endpoints as
    theorems about that embedding.

    External collaborators (the oracle, [python-docx], [json.loads],
    [str()] on exception objects) are not part of the repository: they
    are gathered in a record [World] and every general theorem holds for
    all worlds.  *)

From Stdlib Require Import List NArith ZArith String Ascii Bool Lia.
From stdpp Require Import base tactics option list gmap strings pretty.
Import ListNotations.

Local Open Scope list_scope.

(** ** Text

    A Python [str] is a sequence of Unicode code points. *)

Definition char := N.
Definition str := list char.

(** An ASCII literal of the source, as a [str]. *)
Definition py (lit : string) : str :=
  map N_of_ascii (list_ascii_of_string lit).

Definition nl : str := [10%N].

Definition str_eqb (a b : str) : bool := bool_decide (a = b).

(** [str.isspace] on one code point: the table of CPython's
    [_PyUnicode_IsWhitespace]. *)
Definition isspace (c : char) : bool :=
  ((9 <=? c) && (c <=? 13) || (28 <=? c) && (c <=? 32)
   || (c =? 133) || (c =? 160) || (c =? 5760)
   || (8192 <=? c) && (c <=? 8202)
   || (c =? 8232) || (c =? 8233) || (c =? 8239) || (c =? 8287)
   || (c =? 12288))%N.

(** [s.lstrip()], [s.rstrip()] and [s.strip()] with no argument. *)
Fixpoint lstrip (s : str) : str :=
  match s with
  | c :: s' => if isspace c then lstrip s' else s
  | [] => []
  end.

Definition rstrip (s : str) : str := rev (lstrip (rev s)).

Definition strip (s : str) : str := rstrip (lstrip s).

(** [sep.join(parts)] *)
Fixpoint join (sep : str) (parts : list str) : str :=
  match parts with
  | [] => []
  | [p] => p
  | p :: rest => p ++ sep ++ join sep rest
  end.

(** [s.startswith(p)], returning what follows the prefix. *)
Fixpoint strip_prefix (p s : str) : option str :=
  match p, s with
  | [], _ => Some s
  | a :: p', b :: s' => if (a =? b)%N then strip_prefix p' s' else None
  | _ :: _, [] => None
  end.

(** [needle in hay] *)
Fixpoint contains (needle hay : str) : bool :=
  match strip_prefix needle hay with
  | Some _ => true
  | None => match hay with
            | [] => false
            | _ :: hay' => contains needle hay'
            end
  end.

(** ** Regular expressions

    The fragment of Python's [re] that the pattern of the [/ner] endpoint
    uses, with the backtracking order of the [re] engine: a literal, a
    greedy optional non-capturing group, and the lazy capturing group
    [(.*?)] under [re.DOTALL] (so [.] also matches a newline). *)

Inductive regex : Type :=
| Lit (s : str)
| Opt (r : regex)
| LazyAnyGroup
| Cat (r1 r2 : regex).

Section Matcher.
Context {T : Type}.

(** [(.*?)]: try the continuation on the shortest capture first, and
    extend the capture by one character each time it fails. *)
Fixpoint lazy_any (k : str -> option str -> option T) (captured s : str)
  : option T :=
  match k s (Some captured) with
  | Some m => Some m
  | None => match s with
            | [] => None
            | c :: s' => lazy_any k (captured ++ [c]) s'
            end
  end.

(** [rmatch r s g k]: match [r] at the head of [s], with [g] the
    content of group 1 so far, then continue with [k] on the rest. *)
Fixpoint rmatch (r : regex) (s : str) (g : option str)
         (k : str -> option str -> option T) : option T :=
  match r with
  | Lit l => match strip_prefix l s with
             | Some s' => k s' g
             | None => None
             end
  | Opt r' => match rmatch r' s g k with
              | Some m => Some m
              | None => k s g
              end
  | LazyAnyGroup => lazy_any k [] s
  | Cat r1 r2 => rmatch r1 s g (fun s' g' => rmatch r2 s' g' k)
  end.
End Matcher.

(** A match object: what precedes the match, group 1, what follows. *)
Record Match : Type := mkMatch {
  m_before : str;
  m_group1 : option str;
  m_after : str
}.

(** [pattern.match] anchored at the head of [s]. *)
Definition re_match_here (r : regex) (before s : str) : option Match :=
  rmatch r s None (fun rest g => Some (mkMatch before g rest)).

(** [re.search(r, s)]: the first start position, from the left, at which
    the pattern matches. *)
Fixpoint re_search_from (r : regex) (before s : str) : option Match :=
  match re_match_here r before s with
  | Some m => Some m
  | None => match s with
            | [] => None
            | c :: s' => re_search_from r (before ++ [c]) s'
            end
  end.

Definition re_search (r : regex) (s : str) : option Match :=
  re_search_from r [] s.

(** [match.group(1)]; a group that did not take part is [None] in
    Python. *)
Definition group1 (m : Match) : str := default [] (m_group1 m).

Definition fence : str := Eval cbv in py "```".
Definition json_tag : str := Eval cbv in py "json".

(** [pattern = r"```(?:json)?(.*?)```"] *)
Definition pattern : regex :=
  Cat (Lit fence) (Cat (Opt (Lit json_tag)) (Cat LazyAnyGroup (Lit fence))).

(** ** Exceptions and results

    A value of [exn] is an instance of Python's [Exception] class, the
    class that the clause [except Exception] of every handler catches.
    Signals below [BaseException] only (interpreter exit, keyboard
    interrupt, task cancellation) are outside the model. *)

Inductive exn : Type :=
| HTTPException (status_code : Z) (detail : str)
| JSONDecodeError (msg : str)
| NameError (name : string)
| ValueError (msg : str)
| ValidationError (model field : string)
| OtherError (cls : string) (msg : str).

Inductive Res (A : Type) : Type :=
| Ok (a : A)
| Raise (e : exn).
Arguments Ok {A} a.
Arguments Raise {A} e.

(** ** Values decoded from JSON

    The Python objects that [json.loads] builds.  A [dict] keeps the
    insertion order of its keys; a float is carried by its lexeme. *)

#[warnings="-register-all"] Inductive pyvalue : Type :=
| PyNone
| PyBool (b : bool)
| PyInt (z : Z)
| PyFloat (lexeme : str)
| PyStr (s : str)
| PyList (xs : list pyvalue)
| PyDict (items : list (str * pyvalue)).

(** ** Response models *)

Inductive Response : Type :=
| WelcomeResponse (message : str)
| TransliterationResponse (original_text transliterated_text : str)
| NERResponse (entities : list (str * pyvalue))
| ErrorResponse (error : str).

(** [NERResponse(entities=v)]: the field is declared [entities: dict],
    and pydantic accepts a value for a [dict] field when it is a
    dictionary, raising [ValidationError] otherwise. *)
Definition NERResponse_new (v : pyvalue) : Res Response :=
  match v with
  | PyDict items => Ok (NERResponse items)
  | _ => Raise (ValidationError "NERResponse" "entities")
  end.

(** ** Collaborators *)

(** The reply object of the oracle; reading [.text] may itself fail. *)
Record GenerateContentResponse : Type := {
  response_text : Res str
}.

(** A parsed document: [paragraph.text] of each of [doc.paragraphs]. *)
Record Paragraph : Type := { paragraph_text : str }.
Record DocumentObject : Type := { paragraphs : list Paragraph }.

(** An upload: the content type declared by the client ([None] when
    the part has no such header) and the result of [await file.read()]. *)
Record UploadFile : Type := {
  content_type : option str;
  read : Res (list Byte.byte)
}.

Record World : Type := {
  (** [genai.GenerativeModel(model_name).generate_content(prompt)] *)
  generate_content : str -> str -> Res GenerateContentResponse;
  (** [Document(io.BytesIO(contents))] *)
  Document : list Byte.byte -> Res DocumentObject;
  (** [json.loads(s)] *)
  json_loads : str -> Res pyvalue;
  (** [str(e)] *)
  exc_str : exn -> str
}.

(** ** Effects

    A handler runs in a monad that threads the log of the calls made to
    the collaborators and may raise. *)

Inductive event : Type :=
| file_read
| Document_call (contents : list Byte.byte)
| generate_content_call (prompt : str)
| json_loads_call (s : str).

Definition M (A : Type) : Type := list event -> Res A * list event.

Definition ret {A} (a : A) : M A := fun t => (Ok a, t).

Definition raise {A} (e : exn) : M A := fun t => (Raise e, t).

Definition bind {A B} (m : M A) (k : A -> M B) : M B :=
  fun t => match m t with
           | (Ok a, t') => k a t'
           | (Raise e, t') => (Raise e, t')
           end.

(** A pure computation that may raise. *)
Definition lift {A} (r : Res A) : M A := fun t => (r, t).

(** A call to a collaborator: logged, then its result. *)
Definition call {A} (ev : event) (r : Res A) : M A :=
  fun t => (r, t ++ [ev]).

(** [try: m  except <clause> as e: h e], where [clause e] is [None] for
    an exception the clause does not name, which then propagates. *)
Definition try_except {A} (m : M A) (clause : exn -> option (M A)) : M A :=
  fun t => match m t with
           | (Ok a, t') => (Ok a, t')
           | (Raise e, t') => match clause e with
                              | Some h => h t'
                              | None => (Raise e, t')
                              end
           end.

(** [if c: raise e] *)
Definition raise_if (c : bool) (e : exn) : M unit :=
  if c then raise e else ret tt.

Declare Scope py_scope.
Delimit Scope py_scope with M.
Notation "x <- m ;; k" := (bind m (fun x => k))
  (at level 100, m at next level, right associativity) : py_scope.
Notation "m ;;; k" := (bind m (fun _ => k))
  (at level 100, right associativity) : py_scope.
Local Open Scope py_scope.

Definition run {A} (m : M A) : Res A * list event := m [].

(** ** Formatted string literals

    An f-string is evaluated left to right; a replacement field names a
    variable, looked up in the local scope and then in the module scope,
    and an unbound name raises [NameError].  The scopes list the
    string-valued names; the templates of this program refer to no
    other. *)

Inductive piece : Type :=
| Txt (s : str)
| Var (name : string).

Definition lookup_name (locals globals : gmap string str) (name : string)
  : Res str :=
  match locals !! name with
  | Some v => Ok v
  | None => match globals !! name with
            | Some v => Ok v
            | None => Raise (NameError name)
            end
  end.

Fixpoint fstring (locals globals : gmap string str) (tpl : list piece)
  : Res str :=
  match tpl with
  | [] => Ok []
  | Txt s :: tpl' =>
      match fstring locals globals tpl' with
      | Ok rest => Ok (s ++ rest)
      | Raise e => Raise e
      end
  | Var x :: tpl' =>
      match lookup_name locals globals x with
      | Ok v => match fstring locals globals tpl' with
                | Ok rest => Ok (v ++ rest)
                | Raise e => Raise e
                end
      | Raise e => Raise e
      end
  end.

(** ** Start-up configuration *)

(** The module globals set at import time, once the checks passed. *)
Record Config : Type := {
  GEMINI_API_KEY : str;
  INPUT_LANG : str;
  OUTPUT_LANG : str;
  LLM_MODEL : str
}.

(** [os.getenv(key)] on the process environment (after [load_dotenv]). *)
Definition getenv (environ : gmap string str) (key : string) : option str :=
  environ !! key.

(** [not v] for [v] of type [Optional[str]]: true on [None] and on the
    empty string. *)
Definition not_value (v : option str) : bool :=
  match v with
  | None => true
  | Some [] => true
  | Some (_ :: _) => false
  end.

(** The statements of the module up to the construction of the model
    handle.  A raise at import time ends the process; on [Ok] the four
    globals hold non-empty strings. *)
Definition startup (environ : gmap string str) : Res Config :=
  let GEMINI_API_KEY := getenv environ "GEMINI_API_KEY" in
  let INPUT_LANG := getenv environ "INPUT_LANG" in
  let OUTPUT_LANG := getenv environ "OUTPUT_LANG" in
  let LLM_MODEL := getenv environ "LLM_MODEL" in
  if not_value GEMINI_API_KEY then
    Raise (ValueError (py "GEMINI_API_KEY not found in .env file."))
  else if not_value INPUT_LANG then
    Raise (ValueError (py "INPUT_LANG not found in .env file."))
  else if not_value OUTPUT_LANG then
    Raise (ValueError (py "OUTPUT_LANG not found in .env file."))
  else if not_value LLM_MODEL then
    Raise (ValueError (py "LLM_MODEL not found in .env file."))
  else
    Ok {| GEMINI_API_KEY := default [] GEMINI_API_KEY;
          INPUT_LANG := default [] INPUT_LANG;
          OUTPUT_LANG := default [] OUTPUT_LANG;
          LLM_MODEL := default [] LLM_MODEL |}.

(** The string-valued names of the module scope. *)
Definition module_globals (cfg : Config) : gmap string str :=
  <["GEMINI_API_KEY" := GEMINI_API_KEY cfg]>
    (<["INPUT_LANG" := INPUT_LANG cfg]>
       (<["OUTPUT_LANG" := OUTPUT_LANG cfg]>
          (<["LLM_MODEL" := LLM_MODEL cfg]> ∅))).

(** ** Endpoints *)

Definition docx_mime : str := Eval cbv in
  py "application/vnd.openxmlformats-officedocument.wordprocessingml.document".

(** The f-string of lines 71 and 97 (the same literal in both places). *)
Definition transliterate_template : list piece :=
  [ Txt (py "Transliterate the following text from "); Var "INPUT_LANG";
    Txt (py " to "); Var "OUTPUT_LANG";
    Txt (py " script: '"); Var "text";
    Txt (py "'. Please respond with only transliterated "); Var "OUTPUT_LANG";
    Txt (py " script. Do not provide any extra text and dont translate the text") ].

(** The f-string [ner_prompt] of lines 125 to 132. *)
Definition ner_template : list piece :=
  [ Txt nl;
    Txt (py "            Extract named entities (people, organizations, locations, dates, legal terms, legal abbreviations, act names, institute names, law journal names, medical terms, proper nouns, foreign language terms like Latin words, book names, and vehicle numbers) from the following text. ");
    Txt nl;
    Txt (py "            For each extracted entity, transliterate it into ");
    Var "OUTPUT_LANG"; Txt (py " script. "); Txt nl;
    Txt (py "            Return a JSON object where each named entity is a key, and its corresponding transliterated ");
    Var "OUTPUT_LANG"; Txt (py " value is the value."); Txt nl;
    Txt nl;
    Txt (py "            Text: '"); Var "input_text"; Txt (py "'"); Txt nl;
    Txt (py "            Please return only the JSON object."); Txt nl;
    Txt (py "            ") ].

(** [not text] on a [str]. *)
Definition not_str (s : str) : bool :=
  match s with
  | [] => true
  | _ :: _ => false
  end.

(** [not file]: an [UploadFile] object defines neither [__bool__] nor
    [__len__], so it is always true in a condition. *)
Definition not_file (file : UploadFile) : bool := false.

(** [file.content_type != mime] *)
Definition content_type_differs (file : UploadFile) (mime : str) : bool :=
  negb (bool_decide (content_type file = Some mime)).

Definition could_not_extract (ner_text : str) : str :=
  py "Could not extract json for NER entities : " ++ ner_text.

Section Handlers.
Variable w : World.
Variable cfg : Config.

(** [except Exception as e: return ErrorResponse(error=str(e))] *)
Definition except_Exception (e : exn) : option (M Response) :=
  Some (ret (ErrorResponse (exc_str w e))).

(** [model.generate_content(prompt)] then [response.text] *)
Definition ask_model (prompt : str) : M str :=
  response <- call (generate_content_call prompt)
                   (generate_content w (LLM_MODEL cfg) prompt) ;;
  lift (response_text response).

(** [POST /] *)
Definition welcome : M Response :=
  ret (WelcomeResponse (py "Welcome to the AI Transliteration and NER API! Please go to `/docs` for the API documentation.")).

(** The [try] block of [transliterate_text], lines 68 to 75. *)
Definition transliterate_text_body (text : str) : M Response :=
  raise_if (not_str text)
    (HTTPException 400 (py "Please provide text input.")) ;;;
  prompt <- lift (fstring {["text" := text]} (module_globals cfg)
                          transliterate_template) ;;
  reply <- ask_model prompt ;;
  let transliterated_text := strip reply in
  ret (TransliterationResponse text transliterated_text).

(** [POST /transliterate/text] *)
Definition transliterate_text (text : str) : M Response :=
  try_except (transliterate_text_body text) except_Exception.

(** Lines 93 to 95, shared by the two file endpoints. *)
Definition read_document (file : UploadFile) : M str :=
  contents <- call file_read (read file) ;;
  doc <- call (Document_call contents) (Document w contents) ;;
  ret (join nl (map paragraph_text (paragraphs doc))).

(** Lines 87 to 91 (and 113 to 117). *)
Definition check_upload (file : UploadFile) : M unit :=
  raise_if (not_file file)
    (HTTPException 400 (py "Please provide a file.")) ;;;
  raise_if (content_type_differs file docx_mime)
    (HTTPException 400 (py "Invalid file type. Please upload a .docx file.")).

(** The [try] block of [transliterate_file], lines 87 to 101.  The
    local scope at line 97 holds [input_text] (and the objects [file],
    [contents], [doc]); the f-string names [text]. *)
Definition transliterate_file_body (file : UploadFile) : M Response :=
  check_upload file ;;;
  input_text <- read_document file ;;
  prompt <- lift (fstring {["input_text" := input_text]} (module_globals cfg)
                          transliterate_template) ;;
  reply <- ask_model prompt ;;
  let transliterated_text := strip reply in
  ret (TransliterationResponse input_text transliterated_text).

(** [POST /transliterate/file] *)
Definition transliterate_file (file : UploadFile) : M Response :=
  try_except (transliterate_file_body file) except_Exception.

Definition loads (s : str) : M pyvalue :=
  call (json_loads_call s) (json_loads w s).

(** [except json.JSONDecodeError: h] *)
Definition except_JSONDecodeError {A} (h : M A) (e : exn) : option (M A) :=
  match e with
  | JSONDecodeError _ => Some h
  | _ => None
  end.

(** Lines 139 to 151: the value bound to [entities]. *)
Definition parse_entities (ner_text : str) : M pyvalue :=
  try_except (loads ner_text)
    (except_JSONDecodeError
       (match re_search pattern ner_text with
        | Some m =>
            try_except (loads (strip (group1 m)))
              (except_JSONDecodeError
                 (raise (HTTPException 400 (could_not_extract ner_text))))
        | None => raise (HTTPException 400 (could_not_extract ner_text))
        end)).

(** The [try] block of [extract_and_transliterate_ner]. *)
Definition extract_and_transliterate_ner_body (file : UploadFile)
  : M Response :=
  check_upload file ;;;
  input_text <- read_document file ;;
  ner_prompt <- lift (fstring {["input_text" := input_text]}
                              (module_globals cfg) ner_template) ;;
  reply <- ask_model ner_prompt ;;
  let ner_text := strip reply in
  entities <- parse_entities ner_text ;;
  lift (NERResponse_new entities).

(** [POST /ner] *)
Definition extract_and_transliterate_ner (file : UploadFile) : M Response :=
  try_except (extract_and_transliterate_ner_body file) except_Exception.
End Handlers.

(** ** The HTTP layer

    What the framework sends for the outcome of a handler: a returned
    model is a response with the default status 200; a propagated
    [HTTPException] is a response with its own status; any other
    propagated exception is an internal server error. *)
Definition http_status (outcome : Res Response) : Z :=
  match outcome with
  | Ok _ => 200
  | Raise (HTTPException status _) => status
  | Raise _ => 500
  end.

Definition is_client_error (status : Z) : bool :=
  ((400 <=? status) && (status <? 500))%Z.

(** A call of a path operation function: the parameters are the values
    that the framework extracted from the request and passed to the
    handler. *)
Inductive Request : Type :=
| PostRoot
| PostTransliterateText (text : str)
| PostTransliterateFile (file : UploadFile)
| PostNer (file : UploadFile).

(** The handler that runs for a call. *)
Definition route (w : World) (cfg : Config) (req : Request) : M Response :=
  match req with
  | PostRoot => welcome
  | PostTransliterateText text => transliterate_text w cfg text
  | PostTransliterateFile file => transliterate_file w cfg file
  | PostNer file => extract_and_transliterate_ner w cfg file
  end.

(** The process: the module is imported, and only then are requests
    routed to the handlers. *)
Definition serve (w : World) (environ : gmap string str) (reqs : list Request)
  : Res (list (Res Response * list event)) :=
  match startup environ with
  | Ok cfg => Ok (map (fun req => run (route w cfg req)) reqs)
  | Raise e => Raise e
  end.

(** ** The request side of [POST /transliterate/text]

    Line 61 declares the parameter as [text: str = Form(...)]: a
    required form field.  The framework extracts it before the handler
    is called, and for a form field it counts a value that is absent or
    the empty string as missing; a missing required field is answered
    with status 422 and a detail that locates the field, and the
    handler is not called. *)






(** ** The prompts, written out *)

Definition transliterate_prompt (cfg : Config) (text : str) : str :=
  py "Transliterate the following text from " ++ INPUT_LANG cfg ++
  py " to " ++ OUTPUT_LANG cfg ++ py " script: '" ++ text ++
  py "'. Please respond with only transliterated " ++ OUTPUT_LANG cfg ++
  py " script. Do not provide any extra text and dont translate the text".

Definition ner_prompt (cfg : Config) (input_text : str) : str :=
  nl ++
  py "            Extract named entities (people, organizations, locations, dates, legal terms, legal abbreviations, act names, institute names, law journal names, medical terms, proper nouns, foreign language terms like Latin words, book names, and vehicle numbers) from the following text. " ++
  nl ++
  py "            For each extracted entity, transliterate it into " ++
  OUTPUT_LANG cfg ++ py " script. " ++ nl ++
  py "            Return a JSON object where each named entity is a key, and its corresponding transliterated " ++
  OUTPUT_LANG cfg ++ py " value is the value." ++ nl ++
  nl ++
  py "            Text: '" ++ input_text ++ py "'" ++ nl ++
  py "            Please return only the JSON object." ++ nl ++
  py "            ".

(** The names whose values the module requires at import time, in the
    order of the checks. *)
Definition required_keys : list string :=
  ["GEMINI_API_KEY"; "INPUT_LANG"; "OUTPUT_LANG"; "LLM_MODEL"]%string.

(** [KEY not found in .env file.] *)
Definition not_found (key : string) : str :=
  py key ++ py " not found in .env file.".

(** ** Preconditions of the scenarios *)

(** A well-formed [.docx] upload: the declared type is the
    word-processing one, the body can be read and parses to [doc]. *)
Definition valid_docx (w : World) (file : UploadFile)
           (contents : list Byte.byte) (doc : DocumentObject) : Prop :=
  content_type file = Some docx_mime /\
  read file = Ok contents /\
  Document w contents = Ok doc.

(** The text extracted from a document, line 95. *)
Definition document_text (doc : DocumentObject) : str :=
  join nl (map paragraph_text (paragraphs doc)).

(** The oracle call succeeds on [prompt] with the text [reply]. *)
Definition oracle_replies (w : World) (cfg : Config) (prompt reply : str)
  : Prop :=
  exists response,
    generate_content w (LLM_MODEL cfg) prompt = Ok response /\
    response_text response = Ok reply.

(** The calls logged by a file endpoint up to the reply of the oracle. *)
Definition calls_before_parse (contents : list Byte.byte) (prompt : str)
  : list event :=
  [file_read; Document_call contents; generate_content_call prompt].

(** The [json.loads] calls of a log, in order. *)
Definition loads_calls (t : list event) : list str :=
  omap (fun ev => match ev with json_loads_call s => Some s | _ => None end) t.

Definition is_dict (v : pyvalue) : bool :=
  match v with
  | PyDict _ => true
  | _ => false
  end.

(** No fence starts inside [s] when [s] is followed by a fence. *)
Definition no_fence_starts_in (s : str) : Prop :=
  contains fence (s ++ [96%N; 96%N]) = false.

(** ** A test double for the collaborators

    The oracle answers every prompt with [answer], every upload parses
    to the paragraphs [paras], [str(e)] follows CPython and current
    Starlette, and [json.loads] is replaced by a table of texts whose
    decoding by Python is known. *)

Definition quoted (s : str) : str := [34%N] ++ s ++ [34%N].

(** [{"John": "জন"}] *)
Definition john_json : str :=
  py "{" ++ quoted (py "John") ++ py ": " ++ quoted [2460%N; 2472%N] ++ py "}".

Definition john_entities : list (str * pyvalue) :=
  [(py "John", PyStr [2460%N; 2472%N])].

Definition stub_json_loads (s : str) : Res pyvalue :=
  if str_eqb s (py "{}") then Ok (PyDict [])
  else if str_eqb s john_json then Ok (PyDict john_entities)
  else if str_eqb s (py "[]") then Ok (PyList [])
  else if str_eqb s (py "7") then Ok (PyInt 7)
  else Raise (JSONDecodeError (py "Expecting value: line 1 column 1 (char 0)")).

Definition stub_exc_str (e : exn) : str :=
  match e with
  | HTTPException status detail => py (pretty status) ++ py ": " ++ detail
  | JSONDecodeError msg => msg
  | NameError name => py "name '" ++ py name ++ py "' is not defined"
  | ValueError msg => msg
  | ValidationError model field =>
      py "1 validation error for " ++ py model ++ nl ++ py field
  | OtherError _ msg => msg
  end.

Definition stub_world (paras : list str) (answer : Res GenerateContentResponse)
  : World :=
  {| generate_content := fun _ _ => answer;
     Document := fun _ => Ok {| paragraphs := map Build_Paragraph paras |};
     json_loads := stub_json_loads;
     exc_str := stub_exc_str |}.

Definition replying (reply : str) : Res GenerateContentResponse :=
  Ok {| response_text := Ok reply |}.

Definition sample_config : Config :=
  {| GEMINI_API_KEY := py "k3y";
     INPUT_LANG := py "English";
     OUTPUT_LANG := py "Assamese";
     LLM_MODEL := py "gemini-1.5-flash" |}.

Definition sample_environ : gmap string str :=
  <["GEMINI_API_KEY" := py "k3y"]>
    (<["INPUT_LANG" := py "English"]>
       (<["OUTPUT_LANG" := py "Assamese"]>
          (<["LLM_MODEL" := py "gemini-1.5-flash"]> ∅))).

Definition sample_contents : list Byte.byte := [Byte.x50; Byte.x4b].

Definition sample_docx : UploadFile :=
  {| content_type := Some docx_mime; read := Ok sample_contents |}.

Definition sample_pdf : UploadFile :=
  {| content_type := Some (py "application/pdf"); read := Ok sample_contents |}.

Definition sample_paras : list str := [py "John lives in Guwahati."; py "Hello"].

Definition sample_doc : DocumentObject :=
  {| paragraphs := map Build_Paragraph sample_paras |}.

(** A reply with two fenced blocks, the first of which is not JSON. *)
Definition two_blocks_reply : str :=
  py "Here: " ++ fence ++ json_tag ++ nl ++ py "not json" ++ nl ++ fence ++
  py " or " ++ fence ++ py "{}" ++ fence.

(** The continuation of [(.*?)] in [pattern]: the closing fence, then
    the end of the match. *)
Definition close_fence (before : str) (s : str) (g : option str)
  : option Match :=
  rmatch (Lit fence) s g (fun rest g' => Some (mkMatch before g' rest)).

(** A block body that the optional tag of [pattern] leaves whole: the
    body, followed by the closing fence, does not start with [json]. *)
Definition untagged (inner : str) : Prop :=
  strip_prefix json_tag (inner ++ fence) = None.

(** The first of the required names, in the order of the checks, whose
    value is absent or empty. *)
Definition first_missing (environ : gmap string str) : option string :=
  List.find (fun key => not_value (getenv environ key)) required_keys.

(** A test double in which [json.loads] fails with an exception that is
    not a [JSONDecodeError] (as Python does on input nested too deep). *)
Definition recursion_error : exn :=
  OtherError "RecursionError"
    (py "maximum recursion depth exceeded while decoding a JSON array").

Definition deep_world (paras : list str) (answer : Res GenerateContentResponse)
  : World :=
  {| generate_content := fun _ _ => answer;
     Document := fun _ => Ok {| paragraphs := map Build_Paragraph paras |};
     json_loads := fun _ => Raise recursion_error;
     exc_str := stub_exc_str |}.

(** An upload whose body cannot be read, and a world whose document
    parser rejects every body. *)
Definition unreadable_docx : UploadFile :=
  {| content_type := Some docx_mime;
     read := Raise (OtherError "OSError" (py "read failed")) |}.

Definition bad_zip : exn :=
  OtherError "BadZipFile" (py "File is not a zip file").

Definition no_document_world (answer : Res GenerateContentResponse) : World :=
  {| generate_content := fun _ _ => answer;
     Document := fun _ => Raise bad_zip;
     json_loads := stub_json_loads;
     exc_str := stub_exc_str |}.

(** The prompts sent to the oracle in a log, in order. *)
Definition oracle_calls (t : list event) : list str :=
  omap (fun ev => match ev with
                  | generate_content_call prompt => Some prompt
                  | _ => None
                  end) t.

(** * Properties *)

(** ** Text *)

Section TextFacts.

Lemma lstrip_decompose (s : str) :
  exists l, s = l ++ lstrip s /\ forallb isspace l = true.
Proof.
  induction s as [|c s [l [Hs Hl]]]; simpl.
  - exists []. split; reflexivity.
  - destruct (isspace c) eqn:Hc.
    + exists (c :: l). simpl. rewrite Hc, Hl. split; [congruence | reflexivity].
    + exists []. split; reflexivity.
Qed.

Lemma lstrip_head (s : str) c rest :
  lstrip s = c :: rest -> isspace c = false.
Proof.
  induction s as [|a s IH]; simpl; [discriminate|].
  destruct (isspace a) eqn:Ha; [exact IH|].
  intros [= -> _]. exact Ha.
Qed.

Lemma lstrip_idempotent (s : str) : lstrip (lstrip s) = lstrip s.
Proof.
  destruct (lstrip s) as [|c rest] eqn:E; [reflexivity|].
  simpl. by rewrite (lstrip_head _ _ _ E).
Qed.

Lemma lstrip_all_space (s : str) :
  forallb isspace s = true -> lstrip s = [].
Proof.
  induction s as [|c s IH]; simpl; [reflexivity|].
  intros [Hc Hs]%andb_true_iff. rewrite Hc. auto.
Qed.

Lemma lstrip_app_nonspace (s : str) c rest :
  lstrip s = c :: rest -> forall t, lstrip (s ++ t) = c :: rest ++ t.
Proof.
  induction s as [|a s IH]; simpl; [discriminate|].
  destruct (isspace a) eqn:Ha; [exact IH|].
  intros [= -> <-] t. reflexivity.
Qed.

Lemma forallb_isspace_rev (l : str) :
  forallb isspace (rev l) = forallb isspace l.
Proof.
  induction l as [|c l IH]; simpl; [reflexivity|].
  rewrite forallb_app, IH. simpl. rewrite andb_true_r. apply andb_comm.
Qed.

Lemma rstrip_decompose (s : str) :
  exists r, s = rstrip s ++ r /\ forallb isspace r = true.
Proof.
  unfold rstrip. destruct (lstrip_decompose (rev s)) as [l [Hs Hl]].
  exists (rev l). split.
  - rewrite <- rev_app_distr, <- Hs. symmetry. apply rev_involutive.
  - by rewrite forallb_isspace_rev.
Qed.

Lemma rstrip_last (s : str) rest c :
  rstrip s = rest ++ [c] -> isspace c = false.
Proof.
  unfold rstrip. intros H.
  apply (f_equal (@rev char)) in H.
  rewrite rev_involutive, rev_app_distr in H. simpl in H.
  exact (lstrip_head _ _ _ H).
Qed.

(** What [strip] returns: the text between a run of leading and a run
    of trailing white space, neither starting nor ending with one. *)
Lemma strip_spec (s : str) :
  (exists l r, s = l ++ strip s ++ r /\
               forallb isspace l = true /\ forallb isspace r = true) /\
  (forall c rest, strip s = c :: rest -> isspace c = false) /\
  (forall rest c, strip s = rest ++ [c] -> isspace c = false).
Proof.
  unfold strip. split; [|split].
  - destruct (lstrip_decompose s) as [l [Hs Hl]].
    destruct (rstrip_decompose (lstrip s)) as [r [Hx Hr]].
    exists l, r. repeat split; try assumption. congruence.
  - intros c rest H.
    destruct (rstrip_decompose (lstrip s)) as [r [Hx _]].
    rewrite H in Hx. exact (lstrip_head _ _ _ Hx).
  - intros rest c. apply rstrip_last.
Qed.

Lemma lstrip_fixed (x : str) :
  (forall c rest, x = c :: rest -> isspace c = false) -> lstrip x = x.
Proof.
  destruct x as [|c rest]; [reflexivity|].
  intros H. simpl. by rewrite (H c rest eq_refl).
Qed.

Lemma rstrip_fixed (x : str) :
  (forall rest c, x = rest ++ [c] -> isspace c = false) -> rstrip x = x.
Proof.
  intros H. unfold rstrip. rewrite lstrip_fixed; [apply rev_involutive|].
  intros c rest E. apply (H (rev rest)).
  rewrite <- (rev_involutive x), E. reflexivity.
Qed.

Lemma strip_idempotent (s : str) : strip (strip s) = strip s.
Proof.
  destruct (strip_spec s) as (_ & Hhead & Hlast).
  unfold strip at 1. rewrite (lstrip_fixed _ Hhead). by apply rstrip_fixed.
Qed.

Lemma strip_all_space (s : str) :
  forallb isspace s = true -> strip s = [].
Proof. intros H. unfold strip. by rewrite (lstrip_all_space _ H). Qed.

Lemma join_singleton (sep p : str) : join sep [p] = p.
Proof. reflexivity. Qed.

Lemma join_cons (sep p q : str) (rest : list str) :
  join sep (p :: q :: rest) = p ++ sep ++ join sep (q :: rest).
Proof. reflexivity. Qed.

Lemma strip_prefix_app (p s : str) : strip_prefix p (p ++ s) = Some s.
Proof.
  induction p as [|a p IH]; simpl; [reflexivity|].
  by rewrite N.eqb_refl.
Qed.

Lemma strip_prefix_Some (p s r : str) :
  strip_prefix p s = Some r -> s = p ++ r.
Proof.
  revert s. induction p as [|a p IH]; intros [|b s]; simpl; try congruence.
  destruct (a =? b)%N eqn:E; [|discriminate].
  apply N.eqb_eq in E. subst b. intros H. by rewrite (IH _ H).
Qed.

Lemma contains_unfold (needle hay : str) :
  contains needle hay =
  match strip_prefix needle hay with
  | Some _ => true
  | None => match hay with
            | [] => false
            | _ :: hay' => contains needle hay'
            end
  end.
Proof. destruct hay; reflexivity. Qed.

Lemma contains_spec (needle hay : str) :
  contains needle hay = true <-> exists a b, hay = a ++ needle ++ b.
Proof.
  split.
  - induction hay as [|c hay IH]; rewrite contains_unfold.
    + destruct (strip_prefix needle []) as [r|] eqn:E; [|discriminate].
      intros _. exists [], r. exact (strip_prefix_Some _ _ _ E).
    + destruct (strip_prefix needle (c :: hay)) as [r|] eqn:E.
      * intros _. exists [], r. exact (strip_prefix_Some _ _ _ E).
      * intros H. destruct (IH H) as (a & b & ->). by exists (c :: a), b.
  - intros (a & b & ->). induction a as [|c a IH]; rewrite contains_unfold.
    + simpl. by rewrite strip_prefix_app.
    + change ((c :: a) ++ needle ++ b) with (c :: (a ++ needle ++ b)).
      cbv beta iota. rewrite IH. by destruct (strip_prefix needle _).
Qed.
End TextFacts.

(** ** The fence pattern *)

Section PatternFacts.

Lemma strip_prefix_app_None (p a b : str) :
  strip_prefix p a = None -> length p <= length a ->
  strip_prefix p (a ++ b) = None.
Proof.
  revert a. induction p as [|x p IH]; intros [|y a]; simpl;
    try discriminate; try lia.
  destruct (x =? y)%N; [|reflexivity].
  intros H Hlen. apply IH; [assumption | lia].
Qed.

Lemma strip_prefix_app_Some (p a b r : str) :
  strip_prefix p a = Some r -> strip_prefix p (a ++ b) = Some (r ++ b).
Proof.
  revert a. induction p as [|x p IH]; intros [|y a]; simpl;
    try discriminate; try (by intros [= <-]).
  destruct (x =? y)%N; [apply IH | discriminate].
Qed.

Lemma no_fence_tail (c : char) (x : str) :
  no_fence_starts_in (c :: x) -> no_fence_starts_in x.
Proof.
  unfold no_fence_starts_in. simpl app. rewrite contains_unfold.
  by destruct (strip_prefix fence _).
Qed.

(** Inside a text where no fence starts, no position begins a fence,
    whatever follows the text's own closing fence. *)
Lemma fence_not_prefix (c : char) (x rest : str) :
  no_fence_starts_in (c :: x) ->
  strip_prefix fence ((c :: x) ++ fence ++ rest) = None.
Proof.
  unfold no_fence_starts_in. rewrite contains_unfold.
  destruct (strip_prefix fence ((c :: x) ++ [96%N; 96%N])) eqn:E;
    [discriminate|]. intros _.
  replace ((c :: x) ++ fence ++ rest)
    with (((c :: x) ++ [96%N; 96%N]) ++ 96%N :: rest)
    by (rewrite <- app_assoc; reflexivity).
  apply strip_prefix_app_None; [exact E|].
  rewrite length_app. simpl. lia.
Qed.

Lemma close_fence_unfold before s g :
  close_fence before s g =
  match strip_prefix fence s with
  | Some rest => Some (mkMatch before g rest)
  | None => None
  end.
Proof. reflexivity. Qed.

Lemma lazy_any_unfold {T} (k : str -> option str -> option T) acc s :
  lazy_any k acc s =
  match k s (Some acc) with
  | Some m => Some m
  | None => match s with
            | [] => None
            | c :: s' => lazy_any k (acc ++ [c]) s'
            end
  end.
Proof. destruct s; reflexivity. Qed.

(** The lazy group stops at the first closing fence. *)
Lemma lazy_any_first_fence before acc inner post :
  no_fence_starts_in inner ->
  lazy_any (close_fence before) acc (inner ++ fence ++ post)
  = Some (mkMatch before (Some (acc ++ inner)) post).
Proof.
  revert acc. induction inner as [|c inner IH]; intros acc Hfree;
    rewrite lazy_any_unfold, close_fence_unfold.
  - change ([] ++ fence ++ post) with (fence ++ post).
    rewrite strip_prefix_app, app_nil_r. reflexivity.
  - rewrite (fence_not_prefix _ _ _ Hfree).
    change ((c :: inner) ++ fence ++ post) with (c :: (inner ++ fence ++ post)).
    cbv beta iota.
    rewrite IH by exact (no_fence_tail _ _ Hfree).
    by rewrite <- app_assoc.
Qed.

(** Without a closing fence the lazy group fails. *)
Lemma lazy_any_no_fence before acc s :
  contains fence s = false -> lazy_any (close_fence before) acc s = None.
Proof.
  revert acc. induction s as [|c s IH]; intros acc;
    rewrite contains_unfold, lazy_any_unfold, close_fence_unfold;
    destruct (strip_prefix fence _); try discriminate; [reflexivity|].
  intros H. by apply IH.
Qed.

(** A success of the lazy group, read back: the capture extends the
    accumulator by a text in which no fence starts, and the closing
    fence follows it. *)
Lemma lazy_any_sound before acc s m :
  lazy_any (close_fence before) acc s = Some m ->
  exists inner,
    s = inner ++ fence ++ m_after m /\
    m_group1 m = Some (acc ++ inner) /\
    m_before m = before /\
    no_fence_starts_in inner.
Proof.
  revert acc. induction s as [|c s IH]; intros acc;
    rewrite lazy_any_unfold, close_fence_unfold.
  - destruct (strip_prefix fence []) as [rest|] eqn:E; [|discriminate].
    discriminate E.
  - destruct (strip_prefix fence (c :: s)) as [rest|] eqn:E.
    + intros [= <-]. exists []. simpl. rewrite app_nil_r.
      split; [exact (strip_prefix_Some _ _ _ E)|]. by repeat split.
    + intros H. destruct (IH _ H) as (inner & -> & Hg & Hb & Hfree).
      exists (c :: inner). rewrite <- app_assoc in Hg.
      repeat split; try assumption.
      unfold no_fence_starts_in. rewrite contains_unfold.
      destruct (strip_prefix fence ((c :: inner) ++ [96%N; 96%N])) eqn:E';
        [|exact Hfree].
      exfalso.
      apply (strip_prefix_app_Some _ _ (96%N :: m_after m)) in E'.
      rewrite <- app_assoc in E'.
      change ([96%N; 96%N] ++ 96%N :: m_after m) with (fence ++ m_after m) in E'.
      change (c :: inner ++ fence ++ m_after m)
        with ((c :: inner) ++ fence ++ m_after m) in E.
      congruence.
Qed.
Lemma lazy_any_None before acc s :
  lazy_any (close_fence before) acc s = None -> contains fence s = false.
Proof.
  revert acc. induction s as [|c s IH]; intros acc;
    rewrite contains_unfold, lazy_any_unfold, close_fence_unfold;
    destruct (strip_prefix fence _); try discriminate; [reflexivity|].
  apply IH.
Qed.

Lemma strip_prefix_app_long (p a b r : str) :
  length p <= length a -> strip_prefix p (a ++ b) = Some r ->
  exists r', strip_prefix p a = Some r' /\ r = r' ++ b.
Proof.
  revert a. induction p as [|x p IH]; intros [|y a]; simpl.
  - intros _ [= <-]. by exists [].
  - intros _ [= <-]. by eexists.
  - lia.
  - destruct (x =? y)%N; [|discriminate].
    intros Hlen. apply IH. lia.
Qed.

(** [pattern] anchored at one position, as a decision on the text. *)
Lemma re_match_here_unfold before s :
  re_match_here pattern before s =
  match strip_prefix fence s with
  | Some s1 =>
      match match strip_prefix json_tag s1 with
            | Some s2 => lazy_any (close_fence before) [] s2
            | None => None
            end with
      | Some m => Some m
      | None => lazy_any (close_fence before) [] s1
      end
  | None => None
  end.
Proof. reflexivity. Qed.

Lemma untagged_app (inner rest : str) :
  untagged inner -> strip_prefix json_tag (inner ++ fence ++ rest) = None.
Proof.
  unfold untagged. destruct inner as [|c inner]; [reflexivity|].
  intros H. replace ((c :: inner) ++ fence ++ rest)
    with (((c :: inner) ++ fence) ++ rest) by (by rewrite <- app_assoc).
  apply strip_prefix_app_None; [exact H|].
  rewrite length_app. simpl. lia.
Qed.

Lemma re_match_here_block before tag inner post :
  no_fence_starts_in inner ->
  tag = json_tag \/ (tag = [] /\ untagged inner) ->
  re_match_here pattern before (fence ++ tag ++ inner ++ fence ++ post)
  = Some (mkMatch before (Some inner) post).
Proof.
  intros Hfree Htag. rewrite re_match_here_unfold, strip_prefix_app.
  destruct Htag as [-> | [-> Hun]].
  - rewrite strip_prefix_app. by rewrite lazy_any_first_fence.
  - change ([] ++ inner ++ fence ++ post) with (inner ++ fence ++ post).
    rewrite (untagged_app _ _ Hun). by rewrite lazy_any_first_fence.
Qed.

Lemma re_match_here_sound before s m :
  re_match_here pattern before s = Some m ->
  exists tag inner,
    s = fence ++ tag ++ inner ++ fence ++ m_after m /\
    (tag = [] \/ tag = json_tag) /\
    m_group1 m = Some inner /\
    m_before m = before /\
    no_fence_starts_in inner.
Proof.
  rewrite re_match_here_unfold.
  destruct (strip_prefix fence s) as [s1|] eqn:E1; [|discriminate].
  apply strip_prefix_Some in E1. subst s.
  destruct (strip_prefix json_tag s1) as [s2|] eqn:E2.
  - destruct (lazy_any (close_fence before) [] s2) as [m'|] eqn:E3.
    + intros [= ->]. apply strip_prefix_Some in E2. subst s1.
      destruct (lazy_any_sound _ _ _ _ E3) as (inner & -> & Hg & Hb & Hfree).
      exists json_tag, inner. repeat split; auto.
    + intros H.
      destruct (lazy_any_sound _ _ _ _ H) as (inner & -> & Hg & Hb & Hfree).
      exists [], inner. repeat split; auto.
  - intros H.
    destruct (lazy_any_sound _ _ _ _ H) as (inner & -> & Hg & Hb & Hfree).
    exists [], inner. repeat split; auto.
Qed.

(** A start position fails only when no fence opens there or no fence
    closes after it. *)
Lemma re_match_here_None before s :
  re_match_here pattern before s = None ->
  forall s1, strip_prefix fence s = Some s1 -> contains fence s1 = false.
Proof.
  rewrite re_match_here_unfold. intros H s1 E. rewrite E in H.
  destruct (match strip_prefix json_tag s1 with
            | Some s2 => lazy_any (close_fence before) [] s2
            | None => None
            end); [discriminate|].
  exact (lazy_any_None _ _ _ H).
Qed.

Lemma re_match_here_complete before b c :
  re_match_here pattern before (fence ++ b ++ fence ++ c) <> None.
Proof.
  intros H.
  pose proof (re_match_here_None _ _ H _ (strip_prefix_app _ _)) as Hc.
  assert (contains fence (b ++ fence ++ c) = true) as Ht
    by (apply contains_spec; by exists b, c).
  congruence.
Qed.
Lemma re_search_from_unfold r before s :
  re_search_from r before s =
  match re_match_here r before s with
  | Some m => Some m
  | None => match s with
            | [] => None
            | c :: s' => re_search_from r (before ++ [c]) s'
            end
  end.
Proof. destruct s; reflexivity. Qed.

Lemma re_search_from_block before pre tag inner post :
  no_fence_starts_in pre ->
  no_fence_starts_in inner ->
  tag = json_tag \/ (tag = [] /\ untagged inner) ->
  re_search_from pattern before (pre ++ fence ++ tag ++ inner ++ fence ++ post)
  = Some (mkMatch (before ++ pre) (Some inner) post).
Proof.
  intros Hpre Hinner Htag. revert before.
  induction pre as [|c pre IH]; intros before; rewrite re_search_from_unfold.
  - change ([] ++ fence ++ tag ++ inner ++ fence ++ post)
      with (fence ++ tag ++ inner ++ fence ++ post).
    rewrite re_match_here_block by assumption. by rewrite app_nil_r.
  - rewrite re_match_here_unfold, (fence_not_prefix _ _ _ Hpre).
    change ((c :: pre) ++ fence ++ tag ++ inner ++ fence ++ post)
      with (c :: (pre ++ fence ++ tag ++ inner ++ fence ++ post)).
    cbv beta iota. rewrite IH by exact (no_fence_tail _ _ Hpre).
    by rewrite <- app_assoc.
Qed.

(** A success of the search, read back: the match is the leftmost
    fenced block of the text. *)
Lemma re_search_from_sound before s m :
  re_search_from pattern before s = Some m ->
  exists pre tag inner,
    s = pre ++ fence ++ tag ++ inner ++ fence ++ m_after m /\
    m_before m = before ++ pre /\
    (tag = [] \/ tag = json_tag) /\
    m_group1 m = Some inner /\
    no_fence_starts_in pre /\
    no_fence_starts_in inner.
Proof.
  revert before. induction s as [|c s IH]; intros before;
    rewrite re_search_from_unfold.
  - destruct (re_match_here pattern before []) eqn:E; [|discriminate].
    discriminate E.
  - destruct (re_match_here pattern before (c :: s)) as [m'|] eqn:E.
    + intros [= ->].
      destruct (re_match_here_sound _ _ _ E) as (tag & inner & Hs & Ht & Hg & Hb & Hf).
      exists [], tag, inner. rewrite app_nil_r. by repeat split.
    + intros H.
      destruct (IH _ H) as (pre & tag & inner & -> & Hb & Ht & Hg & Hp & Hf).
      exists (c :: pre), tag, inner. rewrite <- app_assoc in Hb.
      repeat split; try assumption.
      unfold no_fence_starts_in. rewrite contains_unfold.
      destruct (strip_prefix fence ((c :: pre) ++ [96%N; 96%N])) as [r|] eqn:E';
        [|exact Hp].
      exfalso.
      apply (strip_prefix_app_Some _ _
               (96%N :: tag ++ inner ++ fence ++ m_after m)) in E'.
      rewrite <- app_assoc in E'.
      change ([96%N; 96%N] ++ 96%N :: tag ++ inner ++ fence ++ m_after m)
        with (fence ++ tag ++ inner ++ fence ++ m_after m) in E'.
      change ((c :: pre) ++ fence ++ tag ++ inner ++ fence ++ m_after m)
        with (c :: pre ++ fence ++ tag ++ inner ++ fence ++ m_after m) in E'.
      pose proof (re_match_here_None _ _ E _ E') as Hc.
      assert (contains fence
                (r ++ 96%N :: tag ++ inner ++ fence ++ m_after m) = true)
        as Ht'; [|congruence].
      apply contains_spec.
      exists (r ++ 96%N :: tag ++ inner), (m_after m).
      rewrite <- !app_assoc. simpl. by rewrite <- !app_assoc.
Qed.

Lemma re_search_from_complete before a b c :
  re_search_from pattern before (a ++ fence ++ b ++ fence ++ c) <> None.
Proof.
  revert before. induction a as [|x a IH]; intros before;
    rewrite re_search_from_unfold.
  - change ([] ++ fence ++ b ++ fence ++ c) with (fence ++ b ++ fence ++ c).
    pose proof (re_match_here_complete before b c).
    by destruct (re_match_here pattern before _).
  - destruct (re_match_here pattern before _); [discriminate|].
    apply IH.
Qed.

(** X10.  [re.search(pattern, s)] finds nothing exactly when [s] does not
    hold two fences one after the other. *)
Lemma re_search_None_iff (s : str) :
  re_search pattern s = None <->
  ~ exists a b c, s = a ++ fence ++ b ++ fence ++ c.
Proof.
  unfold re_search. split.
  - intros H (a & b & c & ->). by apply (re_search_from_complete [] a b c).
  - intros H. destruct (re_search_from pattern [] s) as [m|] eqn:E;
      [|reflexivity].
    exfalso. apply H.
    destruct (re_search_from_sound _ _ _ E) as (pre & tag & inner & -> & _).
    exists pre, (tag ++ inner), (m_after m). by rewrite <- !app_assoc.
Qed.

Lemma re_search_group_some (s : str) m :
  re_search pattern s = Some m -> m_group1 m = Some (group1 m).
Proof.
  intros H. destruct (re_search_from_sound _ _ _ H)
    as (pre & tag & inner & _ & _ & _ & Hg & _).
  unfold group1. by rewrite Hg.
Qed.
End PatternFacts.

(** ** Steps of the handlers *)

Section HandlerFacts.
Variable w : World.
Variable cfg : Config.

Lemma globals_INPUT_LANG :
  module_globals cfg !! "INPUT_LANG"%string = Some (INPUT_LANG cfg).
Proof. unfold module_globals. by simplify_map_eq. Qed.

Lemma globals_OUTPUT_LANG :
  module_globals cfg !! "OUTPUT_LANG"%string = Some (OUTPUT_LANG cfg).
Proof. unfold module_globals. by simplify_map_eq. Qed.

Lemma globals_text : module_globals cfg !! "text"%string = None.
Proof. unfold module_globals. by simplify_map_eq. Qed.

Lemma lookup_name_local (locals globals : gmap string str) x v :
  locals !! x = Some v -> lookup_name locals globals x = Ok v.
Proof. intros H. unfold lookup_name. by rewrite H. Qed.

Lemma lookup_name_global (locals globals : gmap string str) x :
  locals !! x = None ->
  lookup_name locals globals x =
  match globals !! x with
  | Some v => Ok v
  | None => Raise (NameError x)
  end.
Proof. intros H. unfold lookup_name. by rewrite H. Qed.

(** Line 71: every name of the f-string is bound. *)
Lemma fstring_text (text : str) :
  fstring {["text"%string := text]} (module_globals cfg) transliterate_template
  = Ok (transliterate_prompt cfg text).
Proof.
  unfold transliterate_template, transliterate_prompt. cbn [fstring].
  rewrite !lookup_name_global by done.
  rewrite globals_INPUT_LANG, globals_OUTPUT_LANG.
  rewrite (lookup_name_local _ _ "text"%string text)
    by apply lookup_singleton_eq.
  by rewrite app_nil_r.
Qed.

(** Line 97: [text] is bound neither in the function nor in the
    module. *)
Lemma fstring_file (input_text : str) :
  fstring {["input_text"%string := input_text]} (module_globals cfg)
          transliterate_template
  = Raise (NameError "text").
Proof.
  unfold transliterate_template. cbn [fstring].
  rewrite !lookup_name_global by done.
  by rewrite globals_INPUT_LANG, globals_OUTPUT_LANG, globals_text.
Qed.

(** Lines 125 to 132. *)
Lemma fstring_ner (input_text : str) :
  fstring {["input_text"%string := input_text]} (module_globals cfg)
          ner_template
  = Ok (ner_prompt cfg input_text).
Proof.
  unfold ner_template, ner_prompt. cbn [fstring].
  rewrite !lookup_name_global by done.
  rewrite globals_OUTPUT_LANG.
  rewrite (lookup_name_local _ _ "input_text"%string input_text)
    by apply lookup_singleton_eq.
  by rewrite app_nil_r.
Qed.

Lemma check_upload_ok file t :
  content_type file = Some docx_mime -> check_upload file t = (Ok tt, t).
Proof.
  intros H. unfold check_upload, content_type_differs, bind, raise_if, not_file.
  simpl. by rewrite bool_decide_eq_true_2.
Qed.

Lemma check_upload_bad file t :
  content_type file <> Some docx_mime ->
  check_upload file t
  = (Raise (HTTPException 400
              (py "Invalid file type. Please upload a .docx file.")), t).
Proof.
  intros H. unfold check_upload, content_type_differs, bind, raise_if, not_file.
  simpl. by rewrite bool_decide_eq_false_2.
Qed.

Lemma read_document_ok file contents doc t :
  read file = Ok contents -> Document w contents = Ok doc ->
  read_document w file t
  = (Ok (document_text doc), t ++ [file_read; Document_call contents]).
Proof.
  intros Hr Hd. unfold read_document, bind, call, ret. rewrite Hr, Hd.
  by rewrite <- app_assoc.
Qed.

Lemma ask_model_ok prompt reply t :
  oracle_replies w cfg prompt reply ->
  ask_model w cfg prompt t = (Ok reply, t ++ [generate_content_call prompt]).
Proof.
  intros (response & Hg & Ht). unfold ask_model, bind, call, lift.
  by rewrite Hg, Ht.
Qed.

Lemma ask_model_fails prompt e t :
  generate_content w (LLM_MODEL cfg) prompt = Raise e ->
  ask_model w cfg prompt t = (Raise e, t ++ [generate_content_call prompt]).
Proof. intros Hg. unfold ask_model, bind, call. by rewrite Hg. Qed.

(** Lines 139 to 151, case by case. *)
Lemma parse_entities_direct s v t :
  json_loads w s = Ok v ->
  parse_entities w s t = (Ok v, t ++ [json_loads_call s]).
Proof. intros H. unfold parse_entities, try_except, loads, call. by rewrite H. Qed.

Lemma parse_entities_no_block s msg t :
  json_loads w s = Raise (JSONDecodeError msg) ->
  re_search pattern s = None ->
  parse_entities w s t
  = (Raise (HTTPException 400 (could_not_extract s)), t ++ [json_loads_call s]).
Proof.
  intros H Hs. unfold parse_entities, try_except, loads, call.
  rewrite H. simpl. by rewrite Hs.
Qed.

Lemma parse_entities_block s msg m t :
  json_loads w s = Raise (JSONDecodeError msg) ->
  re_search pattern s = Some m ->
  parse_entities w s t
  = (match json_loads w (strip (group1 m)) with
     | Ok v => Ok v
     | Raise (JSONDecodeError _) =>
         Raise (HTTPException 400 (could_not_extract s))
     | Raise e => Raise e
     end,
     t ++ [json_loads_call s; json_loads_call (strip (group1 m))]).
Proof.
  intros H Hs. unfold parse_entities, try_except, loads, call.
  rewrite H. simpl. rewrite Hs, <- app_assoc. simpl.
  destruct (json_loads w (strip (group1 m))) as [v|[]]; reflexivity.
Qed.

Lemma parse_entities_other s e t :
  json_loads w s = Raise e ->
  (forall msg, e <> JSONDecodeError msg) ->
  parse_entities w s t = (Raise e, t ++ [json_loads_call s]).
Proof.
  intros H Hne. unfold parse_entities, try_except, loads, call.
  rewrite H. destruct e; simpl; try reflexivity. by destruct (Hne msg).
Qed.

(** The [/ner] handler on a well-formed upload, up to the parsing of
    the oracle's reply. *)
Lemma ner_body_run file contents doc reply :
  valid_docx w file contents doc ->
  oracle_replies w cfg (ner_prompt cfg (document_text doc)) reply ->
  run (extract_and_transliterate_ner_body w cfg file)
  = match parse_entities w (strip reply)
            (calls_before_parse contents
               (ner_prompt cfg (document_text doc))) with
    | (Ok v, t) => (NERResponse_new v, t)
    | (Raise e, t) => (Raise e, t)
    end.
Proof.
  intros (Hct & Hr & Hd) Ho.
  unfold run, extract_and_transliterate_ner_body.
  unfold bind at 1. rewrite (check_upload_ok _ _ Hct).
  unfold bind at 1. rewrite (read_document_ok _ _ _ _ Hr Hd).
  unfold bind at 1. unfold lift at 1. rewrite fstring_ner.
  unfold bind at 1. rewrite (ask_model_ok _ _ _ Ho).
  unfold bind, lift, calls_before_parse. simpl app.
  destruct (parse_entities _ _ _) as [[v|e] t]; reflexivity.
Qed.

Lemma ner_run file contents doc reply :
  valid_docx w file contents doc ->
  oracle_replies w cfg (ner_prompt cfg (document_text doc)) reply ->
  run (extract_and_transliterate_ner w cfg file)
  = match parse_entities w (strip reply)
            (calls_before_parse contents
               (ner_prompt cfg (document_text doc))) with
    | (Ok v, t) =>
        match NERResponse_new v with
        | Ok r => (Ok r, t)
        | Raise e => (Ok (ErrorResponse (exc_str w e)), t)
        end
    | (Raise e, t) => (Ok (ErrorResponse (exc_str w e)), t)
    end.
Proof.
  intros Hv Ho. pose proof (ner_body_run _ _ _ _ Hv Ho) as Hb.
  unfold run in *. unfold extract_and_transliterate_ner, try_except.
  rewrite Hb.
  destruct (parse_entities _ _ _) as [[v|e] t]; [|reflexivity].
  destruct (NERResponse_new v); reflexivity.
Qed.

(** A handler is its [try] block under [except Exception]. *)
Lemma try_except_Exception (body : M Response) t :
  try_except body (except_Exception w) t
  = match body t with
    | (Ok r, t') => (Ok r, t')
    | (Raise e, t') => (Ok (ErrorResponse (exc_str w e)), t')
    end.
Proof. unfold try_except. destruct (body t) as [[r|e] t']; reflexivity. Qed.
End HandlerFacts.

(** * The endpoints *)

(** ** [POST /ner]: parsing the reply *)

(** C1, as amended.  On a well-formed upload answered by the oracle:
    when the trimmed reply decodes to a JSON object, that mapping is the
    [entities] of the response; when the trimmed reply does not decode
    and holds a fenced block, the content of the leftmost block is
    stripped and decoded, and a JSON object decoded there is returned;
    when the reply does not decode and there is no block, or the block
    does not decode either, the [try] block raises an [HTTPException]
    of status 400 whose detail contains the trimmed reply. *)
Theorem ner_reply_parsing (w : World) (cfg : Config) (file : UploadFile)
        (contents : list Byte.byte) (doc : DocumentObject) (reply : str) :
  valid_docx w file contents doc ->
  oracle_replies w cfg (ner_prompt cfg (document_text doc)) reply ->
  let ner_text := strip reply in
  let outcome := fst (run (extract_and_transliterate_ner w cfg file)) in
  let raised := fst (run (extract_and_transliterate_ner_body w cfg file)) in
  (forall items,
      json_loads w ner_text = Ok (PyDict items) ->
      outcome = Ok (NERResponse items)) /\
  (forall msg m items,
      json_loads w ner_text = Raise (JSONDecodeError msg) ->
      re_search pattern ner_text = Some m ->
      json_loads w (strip (group1 m)) = Ok (PyDict items) ->
      outcome = Ok (NERResponse items)) /\
  (forall msg,
      json_loads w ner_text = Raise (JSONDecodeError msg) ->
      (re_search pattern ner_text = None \/
       exists m msg', re_search pattern ner_text = Some m /\
                      json_loads w (strip (group1 m))
                      = Raise (JSONDecodeError msg')) ->
      raised = Raise (HTTPException 400 (could_not_extract ner_text)) /\
      is_client_error 400 = true /\
      contains ner_text (could_not_extract ner_text) = true).
Proof.
  intros Hv Ho ner_text outcome raised. subst outcome raised.
  rewrite (ner_run _ _ _ _ _ _ Hv Ho), (ner_body_run _ _ _ _ _ _ Hv Ho).
  fold ner_text. split; [|split].
  - intros items H. by rewrite (parse_entities_direct _ _ _ _ H).
  - intros msg m items H Hs Hi.
    by rewrite (parse_entities_block _ _ _ _ _ H Hs), Hi.
  - intros msg H Hcase. split; [|split; [reflexivity|]].
    + destruct Hcase as [Hs | (m & msg' & Hs & Hi)].
      * by rewrite (parse_entities_no_block _ _ _ _ H Hs).
      * by rewrite (parse_entities_block _ _ _ _ _ H Hs), Hi.
    + apply contains_spec. exists (py "Could not extract json for NER entities : "), [].
      unfold could_not_extract. by rewrite app_nil_r.
Qed.

(** The scenario of a reply that wraps [{"John": "জন"}] in a fenced
    block tagged [json]. *)
Lemma ner_reply_parsing_witness :
  fst (run (extract_and_transliterate_ner
              (stub_world sample_paras
                 (replying (fence ++ json_tag ++ nl ++ john_json ++ nl ++ fence)))
              sample_config sample_docx))
  = Ok (NERResponse john_entities).
Proof.
  refine (proj1 (proj2 (ner_reply_parsing
            (stub_world sample_paras
               (replying (fence ++ json_tag ++ nl ++ john_json ++ nl ++ fence)))
            sample_config sample_docx sample_contents sample_doc
            (fence ++ json_tag ++ nl ++ john_json ++ nl ++ fence) _ _))
          (py "Expecting value: line 1 column 1 (char 0)")
          (mkMatch [] (Some (nl ++ john_json ++ nl)) [])
          john_entities _ _ _).
  - repeat split.
  - eexists. split; reflexivity.
  - vm_compute. reflexivity.
  - vm_compute. reflexivity.
  - vm_compute. reflexivity.
Defined.

(** C1, as stated, fails on the code.  The reply [7] decodes as JSON,
    yet no entities response is returned; and for the reply
    [ nope] followed by a newline, which neither decodes nor holds a
    block, the handler returns normally (status 200) with a message that
    does not contain the raw reply. *)
Lemma ner_reply_parsing_counterexample :
  (let w := stub_world sample_paras (replying (py "7")) in
   json_loads w (strip (py "7")) = Ok (PyInt 7) /\
   fst (run (extract_and_transliterate_ner w sample_config sample_docx))
   = Ok (ErrorResponse (stub_exc_str (ValidationError "NERResponse" "entities")))) /\
  (let raw := py " nope" ++ nl in
   let w := stub_world sample_paras (replying raw) in
   exists message,
     fst (run (extract_and_transliterate_ner w sample_config sample_docx))
     = Ok (ErrorResponse message) /\
     http_status
       (fst (run (extract_and_transliterate_ner w sample_config sample_docx)))
     = 200%Z /\
     contains raw message = false).
Proof.
  split.
  - split; vm_compute; reflexivity.
  - eexists. split; [vm_compute; reflexivity|]. split; vm_compute; reflexivity.
Qed.

(** ** [POST /transliterate/file] *)

(** C2.  On every well-formed [.docx] upload the handler reads and
    parses the document, then fails to build its prompt: the f-string of
    line 97 names [text], which is not bound there.  The [NameError] is
    caught by the handler and returned as an error payload; the oracle
    is not called and no transliteration response is produced. *)
Theorem transliterate_file_unbound_text (w : World) (cfg : Config)
        (file : UploadFile) (contents : list Byte.byte) (doc : DocumentObject) :
  valid_docx w file contents doc ->
  run (transliterate_file w cfg file)
  = (Ok (ErrorResponse (exc_str w (NameError "text"))),
     [file_read; Document_call contents]).
Proof.
  intros (Hct & Hr & Hd).
  unfold run, transliterate_file. rewrite try_except_Exception.
  unfold transliterate_file_body.
  unfold bind at 1. rewrite (check_upload_ok _ _ Hct).
  unfold bind at 1. rewrite (read_document_ok _ _ _ _ _ Hr Hd).
  unfold bind at 1. unfold lift at 1. by rewrite fstring_file.
Qed.

Lemma transliterate_file_unbound_text_witness :
  run (transliterate_file (stub_world sample_paras (replying (py "x")))
         sample_config sample_docx)
  = (Ok (ErrorResponse (py "name 'text' is not defined")),
     [file_read; Document_call sample_contents]).
Proof.
  apply (transliterate_file_unbound_text
           (stub_world sample_paras (replying (py "x")))
           sample_config sample_docx sample_contents sample_doc).
  repeat split.
Defined.

(** ** [POST /transliterate/text] *)

(** The handler called with the empty text (a call that the request
    side above does not make): it raises the [HTTPException] of line 69
    inside its own [try] block and catches it again, so it returns an
    error payload with the default status 200.  The oracle is not
    called. *)
Lemma transliterate_text_empty (w : World) (cfg : Config) :
  run (transliterate_text_body w cfg [])
  = (Raise (HTTPException 400 (py "Please provide text input.")), []) /\
  run (transliterate_text w cfg [])
  = (Ok (ErrorResponse
           (exc_str w (HTTPException 400 (py "Please provide text input.")))),
     []) /\
  http_status (fst (run (transliterate_text w cfg []))) = 200%Z /\
  is_client_error (http_status (fst (run (transliterate_text w cfg [])))) = false.
Proof. repeat split. Qed.


(** ** Uploads of another content type *)

(** Lines 90 to 91 and 116 to 117 under the handler's [except]. *)
Lemma wrong_content_type_body_caught (w : World) (cfg : Config)
      (file : UploadFile) :
  content_type file <> Some docx_mime ->
  let e := HTTPException 400
             (py "Invalid file type. Please upload a .docx file.") in
  run (transliterate_file w cfg file) = (Ok (ErrorResponse (exc_str w e)), []) /\
  run (extract_and_transliterate_ner w cfg file)
  = (Ok (ErrorResponse (exc_str w e)), []).
Proof.
  intros Hct e. split.
  - unfold run, transliterate_file. rewrite try_except_Exception.
    unfold transliterate_file_body, bind.
    by rewrite (check_upload_bad _ _ Hct).
  - unfold run, extract_and_transliterate_ner. rewrite try_except_Exception.
    unfold extract_and_transliterate_ner_body, bind.
    by rewrite (check_upload_bad _ _ Hct).
Qed.

(** C4.  For an upload whose content type is not the word-processing
    one, both file endpoints stop before [file.read()]: no call to a
    collaborator is logged.  The [HTTPException] of lines 91 and 117 is
    caught by the handler, which returns an error payload with status
    200. *)
Theorem wrong_content_type_not_read (w : World) (cfg : Config)
        (file : UploadFile) :
  content_type file <> Some docx_mime ->
  let e := HTTPException 400
             (py "Invalid file type. Please upload a .docx file.") in
  run (transliterate_file w cfg file) = (Ok (ErrorResponse (exc_str w e)), []) /\
  run (extract_and_transliterate_ner w cfg file)
  = (Ok (ErrorResponse (exc_str w e)), []) /\
  http_status (fst (run (transliterate_file w cfg file))) = 200%Z /\
  http_status (fst (run (extract_and_transliterate_ner w cfg file))) = 200%Z.
Proof.
  intros Hct e.
  destruct (wrong_content_type_body_caught w cfg file Hct) as [H1 H2].
  fold e in H1, H2. rewrite H1, H2. by repeat split.
Qed.

Lemma wrong_content_type_not_read_witness :
  run (transliterate_file (stub_world sample_paras (replying (py "x")))
         sample_config sample_pdf)
  = (Ok (ErrorResponse
           (py "400: Invalid file type. Please upload a .docx file.")), []).
Proof.
  apply (wrong_content_type_not_read
           (stub_world sample_paras (replying (py "x")))
           sample_config sample_pdf).
  vm_compute. discriminate.
Defined.

(** C5.  For a non-empty text and an oracle that answers the prompt of
    line 71 with [reply], the handler returns the input text unchanged
    as [original_text] and [reply.strip()] as [transliterated_text]:
    the reply without its leading and trailing white space.  The oracle
    is called once, with that prompt. *)
Theorem transliterate_text_success (w : World) (cfg : Config)
        (text reply : str) :
  text <> [] ->
  oracle_replies w cfg (transliterate_prompt cfg text) reply ->
  run (transliterate_text w cfg text)
  = (Ok (TransliterationResponse text (strip reply)),
     [generate_content_call (transliterate_prompt cfg text)]) /\
  (exists l r, reply = l ++ strip reply ++ r /\
               forallb isspace l = true /\ forallb isspace r = true) /\
  (forall c rest, strip reply = c :: rest -> isspace c = false) /\
  (forall rest c, strip reply = rest ++ [c] -> isspace c = false).
Proof.
  intros Hne Ho. split; [|apply strip_spec].
  unfold run, transliterate_text. rewrite try_except_Exception.
  unfold transliterate_text_body.
  destruct text as [|c text]; [done|].
  unfold bind at 1. unfold raise_if, not_str, ret at 1.
  unfold bind at 1. unfold lift at 1. rewrite fstring_text.
  unfold bind. by rewrite (ask_model_ok _ _ _ _ _ Ho).
Qed.

(** The scenario [Hello world], with an oracle answering [ x ]. *)
Lemma transliterate_text_success_witness :
  run (transliterate_text (stub_world sample_paras (replying (py " x ")))
         sample_config (py "Hello world"))
  = (Ok (TransliterationResponse (py "Hello world") (py "x")),
     [generate_content_call
        (transliterate_prompt sample_config (py "Hello world"))]).
Proof.
  apply (transliterate_text_success
           (stub_world sample_paras (replying (py " x ")))
           sample_config (py "Hello world") (py " x ")).
  - discriminate.
  - eexists. split; reflexivity.
Defined.

(** ** Exceptions at the handler boundary *)

(** C6.  Whatever exception the [try] block of one of the three
    handlers raises, the handler catches it and returns
    [ErrorResponse(error=str(e))]: a normal return, so the exception
    does not propagate and the status is the default one. *)
Theorem exceptions_become_error_payloads (w : World) (cfg : Config)
        (e : exn) (t t' : list event) :
  (forall text,
      transliterate_text_body w cfg text t = (Raise e, t') ->
      transliterate_text w cfg text t = (Ok (ErrorResponse (exc_str w e)), t')) /\
  (forall file,
      transliterate_file_body w cfg file t = (Raise e, t') ->
      transliterate_file w cfg file t = (Ok (ErrorResponse (exc_str w e)), t')) /\
  (forall file,
      extract_and_transliterate_ner_body w cfg file t = (Raise e, t') ->
      extract_and_transliterate_ner w cfg file t
      = (Ok (ErrorResponse (exc_str w e)), t')).
Proof.
  repeat split; intros x H;
    unfold transliterate_text, transliterate_file, extract_and_transliterate_ner;
    rewrite try_except_Exception; by rewrite H.
Qed.

(** An oracle that cannot be reached. *)
Lemma exceptions_become_error_payloads_witness :
  transliterate_text
    (stub_world sample_paras
       (Raise (OtherError "ConnectionError" (py "Connection refused"))))
    sample_config (py "Hello world") []
  = (Ok (ErrorResponse (py "Connection refused")),
     [generate_content_call (transliterate_prompt sample_config (py "Hello world"))]).
Proof.
  apply (proj1 (exceptions_become_error_payloads
                  (stub_world sample_paras
                     (Raise (OtherError "ConnectionError" (py "Connection refused"))))
                  sample_config
                  (OtherError "ConnectionError" (py "Connection refused")) []
                  [generate_content_call
                     (transliterate_prompt sample_config (py "Hello world"))])).
  vm_compute. reflexivity.
Defined.

(** ** Start-up *)

Lemma not_value_iff (v : option str) :
  not_value v = true <-> v = None \/ v = Some [].
Proof.
  destruct v as [[|c s]|]; simpl; split; intros H; try done; auto.
  by destruct H.
Qed.

(** C7.  When one of the four required values is absent from the
    environment, or is the empty string, the import of the module raises
    [ValueError]: the process does not start and no request is routed to
    a handler. *)
Theorem startup_requires_configuration (environ : gmap string str)
        (key : string) :
  In key required_keys ->
  getenv environ key = None \/ getenv environ key = Some [] ->
  exists missing,
    In missing required_keys /\
    startup environ = Raise (ValueError (not_found missing)) /\
    forall w reqs, serve w environ reqs = Raise (ValueError (not_found missing)).
Proof.
  intros Hkey Hval. apply not_value_iff in Hval.
  assert (exists missing, In missing required_keys /\
            startup environ = Raise (ValueError (not_found missing)))
    as (missing & Hin & Hs).
  { unfold startup.
    destruct (not_value (getenv environ "GEMINI_API_KEY")) eqn:E1;
      [exists "GEMINI_API_KEY"%string; split; [simpl; tauto | reflexivity]|].
    destruct (not_value (getenv environ "INPUT_LANG")) eqn:E2;
      [exists "INPUT_LANG"%string; split; [simpl; tauto | reflexivity]|].
    destruct (not_value (getenv environ "OUTPUT_LANG")) eqn:E3;
      [exists "OUTPUT_LANG"%string; split; [simpl; tauto | reflexivity]|].
    destruct (not_value (getenv environ "LLM_MODEL")) eqn:E4;
      [exists "LLM_MODEL"%string; split; [simpl; tauto | reflexivity]|].
    exfalso. simpl in Hkey.
    destruct Hkey as [<-|[<-|[<-|[<-|[]]]]]; congruence. }
  exists missing. repeat split; try assumption.
  intros w reqs. unfold serve. by rewrite Hs.
Qed.

Lemma startup_requires_configuration_witness :
  exists missing,
    In missing required_keys /\
    startup (delete "OUTPUT_LANG"%string sample_environ)
    = Raise (ValueError (not_found missing)) /\
    forall w reqs,
      serve w (delete "OUTPUT_LANG"%string sample_environ) reqs
      = Raise (ValueError (not_found missing)).
Proof.
  apply (startup_requires_configuration
           (delete "OUTPUT_LANG"%string sample_environ) "OUTPUT_LANG").
  - simpl. tauto.
  - left. vm_compute. reflexivity.
Defined.

(** ** Status of the responses *)

(** C8.  Every handler returns normally on every request, so the
    response carries the default status 200 and never a client-error
    status.  At the three places where a handler raises
    [HTTPException(status_code=400)] (empty text, wrong content type,
    reply without JSON) the exception is raised inside the handler's
    [try] block and converted to an error payload by its
    [except Exception] clause. *)
Theorem handlers_never_send_client_errors (w : World) (cfg : Config) :
  (forall req t,
      (exists r t', route w cfg req t = (Ok r, t')) /\
      http_status (fst (route w cfg req t)) = 200%Z /\
      is_client_error (http_status (fst (route w cfg req t))) = false) /\
  (let e := HTTPException 400 (py "Please provide text input.") in
   fst (run (transliterate_text_body w cfg [])) = Raise e /\
   fst (run (transliterate_text w cfg [])) = Ok (ErrorResponse (exc_str w e))) /\
  (forall file,
      content_type file <> Some docx_mime ->
      let e := HTTPException 400
                 (py "Invalid file type. Please upload a .docx file.") in
      fst (run (transliterate_file_body w cfg file)) = Raise e /\
      fst (run (transliterate_file w cfg file)) = Ok (ErrorResponse (exc_str w e)) /\
      fst (run (extract_and_transliterate_ner_body w cfg file)) = Raise e /\
      fst (run (extract_and_transliterate_ner w cfg file))
      = Ok (ErrorResponse (exc_str w e))) /\
  (forall file contents doc reply msg,
      valid_docx w file contents doc ->
      oracle_replies w cfg (ner_prompt cfg (document_text doc)) reply ->
      json_loads w (strip reply) = Raise (JSONDecodeError msg) ->
      re_search pattern (strip reply) = None ->
      let e := HTTPException 400 (could_not_extract (strip reply)) in
      fst (run (extract_and_transliterate_ner_body w cfg file)) = Raise e /\
      fst (run (extract_and_transliterate_ner w cfg file))
      = Ok (ErrorResponse (exc_str w e))).
Proof.
  split; [|split; [|split]].
  - intros req t.
    assert (exists r t', route w cfg req t = (Ok r, t')) as (r & t' & H).
    { destruct req as [|text|file|file]; simpl;
        unfold welcome, ret, transliterate_text, transliterate_file,
          extract_and_transliterate_ner;
        rewrite ?try_except_Exception;
        try match goal with
            | |- context [match ?b t with _ => _ end] =>
                destruct (b t) as [[r|e] t']
            end; eauto. }
    rewrite H. split; [eauto | by split].
  - by split.
  - intros file Hct e.
    assert (fst (run (transliterate_file_body w cfg file)) = Raise e) as H1.
    { unfold run, transliterate_file_body, bind.
      by rewrite (check_upload_bad _ _ Hct). }
    assert (fst (run (extract_and_transliterate_ner_body w cfg file)) = Raise e)
      as H2.
    { unfold run, extract_and_transliterate_ner_body, bind.
      by rewrite (check_upload_bad _ _ Hct). }
    destruct (wrong_content_type_body_caught w cfg file Hct) as [H3 H4].
    fold e in H3, H4. by rewrite H3, H4.
  - intros file contents doc reply msg Hv Ho Hl Hs e.
    rewrite (ner_run _ _ _ _ _ _ Hv Ho), (ner_body_run _ _ _ _ _ _ Hv Ho).
    by rewrite (parse_entities_no_block _ _ _ _ Hl Hs).
Qed.

(** The scenario of the reply [I cannot process this.] *)
Lemma handlers_never_send_client_errors_witness :
  fst (run (extract_and_transliterate_ner
              (stub_world sample_paras (replying (py "I cannot process this.")))
              sample_config sample_docx))
  = Ok (ErrorResponse
          (py "400: Could not extract json for NER entities : I cannot process this.")).
Proof.
  refine (proj2 (proj2 (proj2 (proj2 (handlers_never_send_client_errors
            (stub_world sample_paras (replying (py "I cannot process this.")))
            sample_config)))
          sample_docx sample_contents sample_doc (py "I cannot process this.")
          (py "Expecting value: line 1 column 1 (char 0)") _ _ _ _)).
  - repeat split.
  - eexists. split; reflexivity.
  - vm_compute. reflexivity.
  - vm_compute. reflexivity.
Defined.

(** ** The shape of the entities *)

(** C9.  On a well-formed upload answered by the oracle, an entities
    response is returned only when the value decoded from the reply is a
    dictionary; a reply (or the content of its first fenced block) that
    decodes to any other JSON value fails the validation of
    [NERResponse], and the handler returns the error payload of that
    [ValidationError]. *)
Theorem ner_entities_must_be_object (w : World) (cfg : Config)
        (file : UploadFile) (contents : list Byte.byte) (doc : DocumentObject)
        (reply : str) :
  valid_docx w file contents doc ->
  oracle_replies w cfg (ner_prompt cfg (document_text doc)) reply ->
  let ner_text := strip reply in
  let outcome := fst (run (extract_and_transliterate_ner w cfg file)) in
  let invalid := ErrorResponse (exc_str w (ValidationError "NERResponse" "entities")) in
  (forall items,
      outcome = Ok (NERResponse items) ->
      exists t',
        parse_entities w ner_text
          (calls_before_parse contents (ner_prompt cfg (document_text doc)))
        = (Ok (PyDict items), t')) /\
  (forall v,
      json_loads w ner_text = Ok v -> is_dict v = false ->
      outcome = Ok invalid) /\
  (forall msg m v,
      json_loads w ner_text = Raise (JSONDecodeError msg) ->
      re_search pattern ner_text = Some m ->
      json_loads w (strip (group1 m)) = Ok v -> is_dict v = false ->
      outcome = Ok invalid).
Proof.
  intros Hv Ho ner_text outcome invalid. subst outcome invalid.
  rewrite (ner_run _ _ _ _ _ _ Hv Ho). fold ner_text. split; [|split].
  - intros items.
    destruct (parse_entities _ _ _) as [[v|e] t']; [|discriminate].
    destruct v; simpl; try discriminate. intros [= ->]. by exists t'.
  - intros v H Hd. rewrite (parse_entities_direct _ _ _ _ H).
    by destruct v.
  - intros msg m v H Hs Hi Hd.
    rewrite (parse_entities_block _ _ _ _ _ H Hs), Hi. by destruct v.
Qed.

(** The reply [7] is valid JSON and not an object. *)
Lemma ner_entities_must_be_object_witness :
  fst (run (extract_and_transliterate_ner
              (stub_world sample_paras (replying (py "7")))
              sample_config sample_docx))
  = Ok (ErrorResponse (stub_exc_str (ValidationError "NERResponse" "entities"))).
Proof.
  refine (proj1 (proj2 (ner_entities_must_be_object
            (stub_world sample_paras (replying (py "7")))
            sample_config sample_docx sample_contents sample_doc (py "7") _ _))
          (PyInt 7) _ _).
  - repeat split.
  - eexists. split; reflexivity.
  - vm_compute. reflexivity.
  - reflexivity.
Defined.

(** ** Several fenced blocks *)

(** C10.  When the trimmed reply does not decode and its leftmost
    fenced block has the content [inner] (after the optional [json]
    tag), [json.loads] is called on the trimmed reply and on
    [inner.strip()] and on nothing else, whatever text [post] follows
    the block: a later block is not tried, also when [inner] does not
    decode, in which case the handler reports that no JSON could be
    extracted. *)
Theorem only_first_fenced_block (w : World) (cfg : Config) (file : UploadFile)
        (contents : list Byte.byte) (doc : DocumentObject)
        (reply msg pre tag inner post : str) :
  valid_docx w file contents doc ->
  oracle_replies w cfg (ner_prompt cfg (document_text doc)) reply ->
  strip reply = pre ++ fence ++ tag ++ inner ++ fence ++ post ->
  no_fence_starts_in pre ->
  no_fence_starts_in inner ->
  tag = json_tag \/ (tag = [] /\ untagged inner) ->
  json_loads w (strip reply) = Raise (JSONDecodeError msg) ->
  let result := run (extract_and_transliterate_ner w cfg file) in
  loads_calls (snd result) = [strip reply; strip inner] /\
  (forall items,
      json_loads w (strip inner) = Ok (PyDict items) ->
      fst result = Ok (NERResponse items)) /\
  (forall msg',
      json_loads w (strip inner) = Raise (JSONDecodeError msg') ->
      fst result
      = Ok (ErrorResponse
              (exc_str w (HTTPException 400 (could_not_extract (strip reply)))))).
Proof.
  intros Hv Ho Hshape Hpre Hinner Htag Hl result. subst result.
  assert (re_search pattern (strip reply) = Some (mkMatch pre (Some inner) post))
    as Hs.
  { rewrite Hshape. unfold re_search.
    by rewrite (re_search_from_block [] pre tag inner post Hpre Hinner Htag). }
  rewrite (ner_run _ _ _ _ _ _ Hv Ho).
  rewrite (parse_entities_block _ _ _ _ _ Hl Hs).
  unfold group1. simpl default. split; [|split].
  - destruct (json_loads w (strip inner)) as [v|[]];
      try destruct (NERResponse_new v); reflexivity.
  - intros items Hi. by rewrite Hi.
  - intros msg' Hi. by rewrite Hi.
Qed.

(** A reply with two blocks: the first is not JSON, the second is. *)
Lemma only_first_fenced_block_witness :
  let result :=
    run (extract_and_transliterate_ner
           (stub_world sample_paras (replying two_blocks_reply))
           sample_config sample_docx) in
  loads_calls (snd result) = [two_blocks_reply; py "not json"] /\
  fst result
  = Ok (ErrorResponse
          (stub_exc_str (HTTPException 400 (could_not_extract two_blocks_reply)))).
Proof.
  destruct (only_first_fenced_block
              (stub_world sample_paras (replying two_blocks_reply))
              sample_config sample_docx sample_contents sample_doc
              two_blocks_reply
              (py "Expecting value: line 1 column 1 (char 0)")
              (py "Here: ") json_tag (nl ++ py "not json" ++ nl)
              (py " or " ++ fence ++ py "{}" ++ fence))
    as (Hcalls & _ & Hfail).
  - repeat split.
  - eexists. split; reflexivity.
  - vm_compute. reflexivity.
  - vm_compute. reflexivity.
  - vm_compute. reflexivity.
  - left. reflexivity.
  - vm_compute. reflexivity.
  - split.
    + exact Hcalls.
    + exact (Hfail (py "Expecting value: line 1 column 1 (char 0)") eq_refl).
Defined.

(** * Further properties of the code *)

(** ** Start-up, lines 15 to 28 *)

(** X1.  The import succeeds exactly when each of the four names is bound to
    a non-empty string, and the module globals are then those values. *)
Theorem startup_succeeds_iff (environ : gmap string str) (cfg : Config) :
  startup environ = Ok cfg <->
  (getenv environ "GEMINI_API_KEY" = Some (GEMINI_API_KEY cfg) /\
   GEMINI_API_KEY cfg <> []) /\
  (getenv environ "INPUT_LANG" = Some (INPUT_LANG cfg) /\
   INPUT_LANG cfg <> []) /\
  (getenv environ "OUTPUT_LANG" = Some (OUTPUT_LANG cfg) /\
   OUTPUT_LANG cfg <> []) /\
  (getenv environ "LLM_MODEL" = Some (LLM_MODEL cfg) /\
   LLM_MODEL cfg <> []).
Proof.
  unfold startup.
  destruct (getenv environ "GEMINI_API_KEY") as [[|a1 k1]|];
    destruct (getenv environ "INPUT_LANG") as [[|a2 k2]|];
    destruct (getenv environ "OUTPUT_LANG") as [[|a3 k3]|];
    destruct (getenv environ "LLM_MODEL") as [[|a4 k4]|];
    simpl; (split; [intros H | intros ((H1 & N1) & (H2 & N2) & (H3 & N3) & (H4 & N4))]);
    try discriminate; try congruence.
  - injection H as <-. simpl. by repeat split.
  - destruct cfg. simpl in *. congruence.
Qed.

(** X2.  The error of a failed import names the first missing value, in the
    order [GEMINI_API_KEY], [INPUT_LANG], [OUTPUT_LANG], [LLM_MODEL];
    later missing values are not reported. *)
Theorem startup_reports_first_missing (environ : gmap string str) :
  match first_missing environ with
  | Some key => startup environ = Raise (ValueError (not_found key))
  | None => exists cfg, startup environ = Ok cfg
  end.
Proof.
  unfold first_missing, startup, required_keys. simpl.
  destruct (not_value (getenv environ "GEMINI_API_KEY")); [reflexivity|].
  destruct (not_value (getenv environ "INPUT_LANG")); [reflexivity|].
  destruct (not_value (getenv environ "OUTPUT_LANG")); [reflexivity|].
  destruct (not_value (getenv environ "LLM_MODEL")); [reflexivity|].
  eauto.
Qed.

(** ** [POST /transliterate/text], lines 67 to 77 *)

(** The handler, case by case. *)
Lemma transliterate_text_run (w : World) (cfg : Config) (text : str) :
  run (transliterate_text w cfg text)
  = match text with
    | [] =>
        (Ok (ErrorResponse
               (exc_str w (HTTPException 400 (py "Please provide text input.")))),
         [])
    | _ :: _ =>
        let prompt := transliterate_prompt cfg text in
        (match generate_content w (LLM_MODEL cfg) prompt with
         | Ok response =>
             match response_text response with
             | Ok reply => Ok (TransliterationResponse text (strip reply))
             | Raise e => Ok (ErrorResponse (exc_str w e))
             end
         | Raise e => Ok (ErrorResponse (exc_str w e))
         end,
         [generate_content_call prompt])
    end.
Proof.
  destruct text as [|c text]; [reflexivity|].
  unfold run, transliterate_text. rewrite try_except_Exception.
  unfold transliterate_text_body.
  unfold bind at 1. unfold raise_if, not_str, ret at 1.
  unfold bind at 1. unfold lift at 1. rewrite fstring_text.
  unfold bind, ask_model, bind, call, lift, ret. simpl.
  destruct (generate_content w _ _) as [response|e]; [|reflexivity].
  destruct (response_text response); reflexivity.
Qed.

(** X3.  Whatever the oracle does, a transliteration returned by the text
    endpoint echoes the request text, which is then not empty, and its
    [transliterated_text] is an answer of the oracle to the prompt of
    line 71 without leading or trailing white space. *)
Theorem transliterate_text_response_shape (w : World) (cfg : Config)
        (text original transliterated : str) :
  fst (run (transliterate_text w cfg text))
  = Ok (TransliterationResponse original transliterated) ->
  original = text /\ text <> [] /\
  (exists reply,
      oracle_replies w cfg (transliterate_prompt cfg text) reply /\
      transliterated = strip reply) /\
  (forall c rest, transliterated = c :: rest -> isspace c = false) /\
  (forall rest c, transliterated = rest ++ [c] -> isspace c = false).
Proof.
  rewrite transliterate_text_run.
  destruct text as [|c text]; [discriminate|]. simpl.
  destruct (generate_content w _ _) as [response|e] eqn:Hg; [|discriminate].
  destruct (response_text response) as [reply|e] eqn:Ht; [|discriminate].
  intros [= <- <-]. split; [reflexivity|]. split; [discriminate|].
  split; [|apply strip_spec].
  exists reply. split; [|reflexivity]. by exists response.
Qed.

Lemma transliterate_text_response_shape_witness :
  py "Hello world" <> [] /\
  exists reply,
    oracle_replies (stub_world sample_paras (replying (py " x ")))
      sample_config (transliterate_prompt sample_config (py "Hello world")) reply /\
    py "x" = strip reply.
Proof.
  destruct (transliterate_text_response_shape
              (stub_world sample_paras (replying (py " x ")))
              sample_config (py "Hello world") (py "Hello world") (py "x"))
    as (_ & Hne & Hreply & _).
  - vm_compute. reflexivity.
  - split; assumption.
Defined.

(** X4.  The text endpoint calls the oracle at most once: not at all on the
    empty text, and otherwise once with the prompt of line 71, also when
    the call or the reading of its text fails.  No other collaborator
    is called. *)
Theorem transliterate_text_calls (w : World) (cfg : Config) (text : str) :
  snd (run (transliterate_text w cfg text))
  = if not_str text then []
    else [generate_content_call (transliterate_prompt cfg text)].
Proof. rewrite transliterate_text_run. by destruct text. Qed.

(** ** The file endpoints up to the extracted text *)

(** Lines 87 to 95 followed by the rest [k] of a [try] block. *)
Lemma upload_prefix_run (w : World) (file : UploadFile)
      (k : str -> M Response) :
  run (bind (check_upload file)
         (fun _ => bind (read_document w file) k))
  = if bool_decide (content_type file = Some docx_mime) then
      match read file with
      | Ok contents =>
          match Document w contents with
          | Ok doc => k (document_text doc) [file_read; Document_call contents]
          | Raise e => (Raise e, [file_read; Document_call contents])
          end
      | Raise e => (Raise e, [file_read])
      end
    else
      (Raise (HTTPException 400
                (py "Invalid file type. Please upload a .docx file.")), []).
Proof.
  unfold run. case_bool_decide as Hct.
  - unfold bind at 1. rewrite (check_upload_ok _ _ Hct).
    unfold bind, read_document, bind, call, ret.
    destruct (read file) as [contents|e]; [|reflexivity].
    destruct (Document w contents) as [doc|e]; reflexivity.
  - unfold bind. by rewrite (check_upload_bad _ _ Hct).
Qed.

(** ** [POST /transliterate/file], lines 86 to 103 *)

(** The handler, case by case. *)
Lemma transliterate_file_run (w : World) (cfg : Config) (file : UploadFile) :
  run (transliterate_file w cfg file)
  = if bool_decide (content_type file = Some docx_mime) then
      match read file with
      | Ok contents =>
          (Ok (ErrorResponse
                 (exc_str w match Document w contents with
                            | Ok _ => NameError "text"
                            | Raise e => e
                            end)),
           [file_read; Document_call contents])
      | Raise e => (Ok (ErrorResponse (exc_str w e)), [file_read])
      end
    else
      (Ok (ErrorResponse
             (exc_str w (HTTPException 400
                (py "Invalid file type. Please upload a .docx file.")))), []).
Proof.
  unfold run, transliterate_file. rewrite try_except_Exception.
  unfold transliterate_file_body.
  pose proof (upload_prefix_run w file) as Hp. unfold run in Hp. rewrite Hp.
  case_bool_decide; [|reflexivity].
  destruct (read file) as [contents|e]; [|reflexivity].
  destruct (Document w contents) as [doc|e]; [|reflexivity].
  unfold bind at 1. unfold lift at 1. by rewrite fstring_file.
Qed.

(** X5.  The file endpoint never succeeds: on every upload, in every world,
    it returns an error payload, and it never calls the oracle. *)
Theorem transliterate_file_always_fails (w : World) (cfg : Config)
        (file : UploadFile) :
  (exists message,
      fst (run (transliterate_file w cfg file)) = Ok (ErrorResponse message)) /\
  (forall prompt,
      ~ In (generate_content_call prompt)
           (snd (run (transliterate_file w cfg file)))).
Proof.
  rewrite transliterate_file_run.
  case_bool_decide; [destruct (read file) as [contents|e]|];
    (split; [eexists; reflexivity|]);
    intros prompt Hin; cbn in Hin; intuition discriminate.
Qed.

(** ** [POST /ner], lines 112 to 156 *)

(** The [try] block after the text of the document was extracted. *)
Lemma ner_rest_run (w : World) (cfg : Config) (input_text : str)
      (t : list event) :
  let prompt := ner_prompt cfg input_text in
  bind (lift (fstring {["input_text"%string := input_text]}
                      (module_globals cfg) ner_template))
       (fun ner_prompt =>
          bind (ask_model w cfg ner_prompt)
               (fun reply =>
                  bind (parse_entities w (strip reply))
                       (fun entities => lift (NERResponse_new entities)))) t
  = match generate_content w (LLM_MODEL cfg) prompt with
    | Ok response =>
        match response_text response with
        | Ok reply =>
            match parse_entities w (strip reply)
                    (t ++ [generate_content_call prompt]) with
            | (Ok v, t') => (NERResponse_new v, t')
            | (Raise e, t') => (Raise e, t')
            end
        | Raise e => (Raise e, t ++ [generate_content_call prompt])
        end
    | Raise e => (Raise e, t ++ [generate_content_call prompt])
    end.
Proof.
  intros prompt. unfold bind at 1. unfold lift at 1. rewrite fstring_ner.
  fold prompt. unfold bind, ask_model, bind, call, lift.
  destruct (generate_content w _ _) as [response|e]; [|reflexivity].
  destruct (response_text response) as [reply|e]; [|reflexivity].
  destruct (parse_entities _ _ _) as [[v|e] t']; reflexivity.
Qed.

(** The log of [parse_entities]: one or two [json.loads] calls are
    appended, the second only after a decode error and a match. *)
Lemma parse_entities_log (w : World) (s : str) (t : list event) :
  snd (parse_entities w s t) = t ++ [json_loads_call s] \/
  exists msg m,
    json_loads w s = Raise (JSONDecodeError msg) /\
    re_search pattern s = Some m /\
    snd (parse_entities w s t)
    = t ++ [json_loads_call s; json_loads_call (strip (group1 m))].
Proof.
  destruct (json_loads w s) as [v|e] eqn:Hl.
  - left. by rewrite (parse_entities_direct _ _ _ _ Hl).
  - destruct e as [| msg | | | |];
      try (left; rewrite (parse_entities_other _ _ _ _ Hl); [reflexivity|];
           intros msg'; discriminate).
    destruct (re_search pattern s) as [m|] eqn:Hs.
    + right. exists msg, m. repeat split.
      by rewrite (parse_entities_block _ _ _ _ _ Hl Hs).
    + left. by rewrite (parse_entities_no_block _ _ _ _ Hl Hs).
Qed.

Lemma loads_calls_app (t u : list event) :
  loads_calls (t ++ u) = loads_calls t ++ loads_calls u.
Proof. unfold loads_calls. apply omap_app. Qed.

(** X6.  For every text, [json.loads] is called once or twice: first on the
    text itself, and a second time only when that call raised
    [JSONDecodeError] and the pattern matched, on the stripped content
    of the match. *)
Theorem parse_entities_decodes_at_most_twice (w : World) (s : str)
        (t : list event) :
  loads_calls (snd (parse_entities w s t)) = loads_calls t ++ [s] \/
  exists msg m,
    json_loads w s = Raise (JSONDecodeError msg) /\
    re_search pattern s = Some m /\
    loads_calls (snd (parse_entities w s t))
    = loads_calls t ++ [s; strip (group1 m)].
Proof.
  destruct (parse_entities_log w s t) as [H | (msg & m & Hl & Hs & H)].
  - left. by rewrite H, loads_calls_app.
  - right. exists msg, m. repeat split; try assumption.
    by rewrite H, loads_calls_app.
Qed.

(** X7.  An exception of [json.loads] that is not a [JSONDecodeError] is
    not handled by the fallback: the pattern is not tried, and the
    handler returns the message of that exception. *)
Theorem ner_other_exception_skips_fallback (w : World) (cfg : Config)
        (file : UploadFile) (contents : list Byte.byte) (doc : DocumentObject)
        (reply : str) (e : exn) :
  valid_docx w file contents doc ->
  oracle_replies w cfg (ner_prompt cfg (document_text doc)) reply ->
  json_loads w (strip reply) = Raise e ->
  (forall msg, e <> JSONDecodeError msg) ->
  run (extract_and_transliterate_ner w cfg file)
  = (Ok (ErrorResponse (exc_str w e)),
     calls_before_parse contents (ner_prompt cfg (document_text doc))
     ++ [json_loads_call (strip reply)]).
Proof.
  intros Hv Ho Hl Hne. rewrite (ner_run _ _ _ _ _ _ Hv Ho).
  by rewrite (parse_entities_other _ _ _ _ Hl Hne).
Qed.

(** A reply that holds a valid block is still lost when the decoder
    fails otherwise. *)
Lemma ner_other_exception_skips_fallback_witness :
  fst (run (extract_and_transliterate_ner
              (deep_world sample_paras (replying (fence ++ py "{}" ++ fence)))
              sample_config sample_docx))
  = Ok (ErrorResponse
          (py "maximum recursion depth exceeded while decoding a JSON array")).
Proof.
  rewrite (ner_other_exception_skips_fallback
             (deep_world sample_paras (replying (fence ++ py "{}" ++ fence)))
             sample_config sample_docx sample_contents sample_doc
             (fence ++ py "{}" ++ fence) recursion_error).
  - reflexivity.
  - repeat split.
  - eexists. split; reflexivity.
  - reflexivity.
  - intros msg. discriminate.
Defined.

(** The [/ner] handler on any upload, up to the parsing of the reply. *)
Lemma ner_run_cases (w : World) (cfg : Config) (file : UploadFile) :
  run (extract_and_transliterate_ner w cfg file)
  = if bool_decide (content_type file = Some docx_mime) then
      match read file with
      | Ok contents =>
          match Document w contents with
          | Ok doc =>
              let prompt := ner_prompt cfg (document_text doc) in
              match generate_content w (LLM_MODEL cfg) prompt with
              | Ok response =>
                  match response_text response with
                  | Ok reply =>
                      match parse_entities w (strip reply)
                              (calls_before_parse contents prompt) with
                      | (Ok v, t) =>
                          match NERResponse_new v with
                          | Ok r => (Ok r, t)
                          | Raise e => (Ok (ErrorResponse (exc_str w e)), t)
                          end
                      | (Raise e, t) => (Ok (ErrorResponse (exc_str w e)), t)
                      end
                  | Raise e => (Ok (ErrorResponse (exc_str w e)),
                                calls_before_parse contents prompt)
                  end
              | Raise e => (Ok (ErrorResponse (exc_str w e)),
                            calls_before_parse contents prompt)
              end
          | Raise e => (Ok (ErrorResponse (exc_str w e)),
                        [file_read; Document_call contents])
          end
      | Raise e => (Ok (ErrorResponse (exc_str w e)), [file_read])
      end
    else
      (Ok (ErrorResponse
             (exc_str w (HTTPException 400
                (py "Invalid file type. Please upload a .docx file.")))), []).
Proof.
  unfold run, extract_and_transliterate_ner. rewrite try_except_Exception.
  unfold extract_and_transliterate_ner_body.
  pose proof (upload_prefix_run w file) as Hp. unfold run in Hp. rewrite Hp.
  case_bool_decide; [|reflexivity].
  destruct (read file) as [contents|e]; [|reflexivity].
  destruct (Document w contents) as [doc|e]; [|reflexivity].
  rewrite ner_rest_run. cbv zeta. unfold calls_before_parse.
  change ([file_read; Document_call contents]
          ++ [generate_content_call (ner_prompt cfg (document_text doc))])
    with [file_read; Document_call contents;
          generate_content_call (ner_prompt cfg (document_text doc))].
  destruct (generate_content w _ _) as [response|e]; [|reflexivity].
  destruct (response_text response) as [reply|e]; [|reflexivity].
  destruct (parse_entities _ _ _) as [[v|e] t']; [|reflexivity].
  destruct (NERResponse_new v); reflexivity.
Qed.

Lemma oracle_calls_app (t u : list event) :
  oracle_calls (t ++ u) = oracle_calls t ++ oracle_calls u.
Proof. unfold oracle_calls. apply omap_app. Qed.

Lemma parse_entities_oracle_calls (w : World) (s : str) (t : list event) :
  oracle_calls (snd (parse_entities w s t)) = oracle_calls t.
Proof.
  destruct (parse_entities_log w s t) as [H | (msg & m & _ & _ & H)];
    rewrite H, oracle_calls_app; simpl; apply app_nil_r.
Qed.

(** X8.  On every upload, in every world, the [/ner] handler calls the
    oracle at most once, and only after the upload passed the type
    check and was read and parsed; the prompt is then the one built
    from the text of that document. *)
Theorem ner_oracle_called_once_on_documents (w : World) (cfg : Config)
        (file : UploadFile) :
  oracle_calls (snd (run (extract_and_transliterate_ner w cfg file))) = [] \/
  exists contents doc,
    valid_docx w file contents doc /\
    oracle_calls (snd (run (extract_and_transliterate_ner w cfg file)))
    = [ner_prompt cfg (document_text doc)].
Proof.
  rewrite ner_run_cases.
  case_bool_decide as Hct; [|by left].
  destruct (read file) as [contents|e] eqn:Hr; [|by left].
  destruct (Document w contents) as [doc|e] eqn:Hd; [|by left].
  right. exists contents, doc. split; [by repeat split|]. cbv zeta.
  destruct (generate_content w _ _) as [response|e]; [|reflexivity].
  destruct (response_text response) as [reply|e]; [|reflexivity].
  pose proof (parse_entities_oracle_calls w (strip reply)
                (calls_before_parse contents
                   (ner_prompt cfg (document_text doc)))) as Hp.
  destruct (parse_entities _ _ _) as [[v|e] t']; simpl in Hp;
    try destruct (NERResponse_new v); exact Hp.
Qed.

(** X9.  A failure before the reply is parsed is returned as the message of
    its exception, and stops the handler there: an unreadable body is
    not parsed, an unparsable document is not sent to the oracle, and
    the reply of a failed oracle call is not decoded. *)
Theorem ner_failures_before_parsing (w : World) (cfg : Config)
        (file : UploadFile) :
  content_type file = Some docx_mime ->
  (forall e,
      read file = Raise e ->
      run (extract_and_transliterate_ner w cfg file)
      = (Ok (ErrorResponse (exc_str w e)), [file_read])) /\
  (forall contents e,
      read file = Ok contents -> Document w contents = Raise e ->
      run (extract_and_transliterate_ner w cfg file)
      = (Ok (ErrorResponse (exc_str w e)),
         [file_read; Document_call contents])) /\
  (forall contents doc e,
      read file = Ok contents -> Document w contents = Ok doc ->
      generate_content w (LLM_MODEL cfg) (ner_prompt cfg (document_text doc))
      = Raise e ->
      run (extract_and_transliterate_ner w cfg file)
      = (Ok (ErrorResponse (exc_str w e)),
         calls_before_parse contents (ner_prompt cfg (document_text doc)))).
Proof.
  intros Hct. rewrite ner_run_cases, (bool_decide_eq_true_2 _ Hct).
  split; [|split].
  - intros e Hr. by rewrite Hr.
  - intros contents e Hr Hd. by rewrite Hr, Hd.
  - intros contents doc e Hr Hd Hg. rewrite Hr, Hd. cbv zeta. by rewrite Hg.
Qed.

Lemma ner_failures_before_parsing_witness :
  run (extract_and_transliterate_ner
         (stub_world sample_paras (replying (py "{}")))
         sample_config unreadable_docx)
  = (Ok (ErrorResponse (py "read failed")), [file_read]) /\
  run (extract_and_transliterate_ner
         (no_document_world (replying (py "{}"))) sample_config sample_docx)
  = (Ok (ErrorResponse (py "File is not a zip file")),
     [file_read; Document_call sample_contents]).
Proof.
  split.
  - apply (proj1 (ner_failures_before_parsing
                    (stub_world sample_paras (replying (py "{}")))
                    sample_config unreadable_docx eq_refl)
                 (OtherError "OSError" (py "read failed"))).
    reflexivity.
  - apply (proj1 (proj2 (ner_failures_before_parsing
                    (no_document_world (replying (py "{}")))
                    sample_config sample_docx eq_refl))
                 sample_contents bad_zip); reflexivity.
Defined.

(** ** The pattern of line 143 *)

Lemma starts_with_json_tag (inner r : str) :
  strip_prefix json_tag (inner ++ fence) = Some r ->
  exists inner', inner = json_tag ++ inner'.
Proof.
  unfold json_tag, fence.
  destruct inner as [|a [|b [|c [|d inner']]]]; cbn [strip_prefix app];
    repeat match goal with
           | |- context [(?x =? ?y)%N] => destruct (N.eqb_spec x y)
           end; try discriminate; try lia.
  intros _. subst. by exists inner'.
Qed.

Lemma no_fence_after_tag (inner : str) :
  no_fence_starts_in (json_tag ++ inner) -> no_fence_starts_in inner.
Proof.
  unfold json_tag. intros H.
  by do 4 apply no_fence_tail in H.
Qed.

(** X11.  What [re.search(pattern, s, re.DOTALL)] returns, exactly: the match
    is the leftmost pair of fences of [s]; group 1 is the text between
    them, without the tag [json] when that text starts with it; no
    fence starts before the match nor inside the group. *)
Theorem re_search_pattern_spec (s : str) (m : Match) :
  re_search pattern s = Some m <->
  exists pre tag inner,
    s = pre ++ fence ++ tag ++ inner ++ fence ++ m_after m /\
    m_before m = pre /\
    m_group1 m = Some inner /\
    no_fence_starts_in pre /\
    no_fence_starts_in inner /\
    (tag = json_tag \/ (tag = [] /\ untagged inner)).
Proof.
  unfold re_search. split.
  - intros H.
    destruct (re_search_from_sound _ _ _ H)
      as (pre & tag & inner & Hs & Hb & Ht & Hg & Hp & Hi).
    exists pre. destruct Ht as [-> | ->].
    + destruct (strip_prefix json_tag (inner ++ fence)) as [r|] eqn:E.
      * exfalso. destruct (starts_with_json_tag _ _ E) as (inner' & ->).
        assert (re_search_from pattern [] s
                = Some (mkMatch ([] ++ pre) (Some inner') (m_after m))) as H'.
        { rewrite Hs.
          replace (pre ++ fence ++ [] ++ (json_tag ++ inner') ++ fence ++ m_after m)
            with (pre ++ fence ++ json_tag ++ inner' ++ fence ++ m_after m)
            by (cbn [app]; by rewrite <- (app_assoc json_tag)).
          apply re_search_from_block;
            [exact Hp | by apply no_fence_after_tag | by left]. }
        rewrite H in H'. injection H' as Hm.
        apply (f_equal m_group1) in Hm. simpl in Hm. rewrite Hg in Hm.
        injection Hm as Hm. apply (f_equal (@length char)) in Hm.
        rewrite ?length_app in Hm. simpl in Hm. lia.
      * exists [], inner. by repeat split; auto.
    + exists json_tag, inner. by repeat split; auto.
  - intros (pre & tag & inner & Hs & Hb & Hg & Hp & Hi & Ht).
    rewrite Hs, (re_search_from_block [] pre tag inner (m_after m) Hp Hi Ht).
    destruct m as [b g a]. simpl in *. by subst.
Qed.

(** ** White space around the reply *)

Lemma lstrip_app_space (l s : str) :
  forallb isspace l = true -> lstrip (l ++ s) = lstrip s.
Proof.
  induction l as [|c l IH]; simpl; [reflexivity|].
  intros [Hc Hl]%andb_true_iff. rewrite Hc. auto.
Qed.

Lemma rstrip_app_space (s r : str) :
  forallb isspace r = true -> rstrip (s ++ r) = rstrip s.
Proof.
  intros Hr. unfold rstrip. rewrite rev_app_distr.
  by rewrite lstrip_app_space by (by rewrite forallb_isspace_rev).
Qed.

Lemma strip_padding (l s r : str) :
  forallb isspace l = true -> forallb isspace r = true ->
  strip (l ++ s ++ r) = strip s.
Proof.
  intros Hl Hr. unfold strip. rewrite (lstrip_app_space _ _ Hl).
  destruct (lstrip s) as [|c rest] eqn:E.
  - destruct (lstrip_decompose s) as (l0 & Hs & Hl0).
    rewrite E, app_nil_r in Hs. subst l0.
    rewrite lstrip_all_space; [reflexivity|].
    by rewrite forallb_app, Hl0, Hr.
  - rewrite (lstrip_app_nonspace _ _ _ E r).
    change (c :: rest ++ r) with ((c :: rest) ++ r).
    by apply rstrip_app_space.
Qed.

(** X12.  White space that the oracle puts around its answer does not change
    the response of the text endpoint. *)
Theorem transliterate_text_ignores_padding (w : World) (cfg : Config)
        (text l answer r : str) :
  text <> [] ->
  forallb isspace l = true -> forallb isspace r = true ->
  oracle_replies w cfg (transliterate_prompt cfg text) (l ++ answer ++ r) ->
  fst (run (transliterate_text w cfg text))
  = Ok (TransliterationResponse text (strip answer)).
Proof.
  intros Hne Hl Hr (response & Hg & Ht). rewrite transliterate_text_run.
  destruct text as [|c text]; [done|]. cbv zeta.
  rewrite Hg, Ht. simpl fst. by rewrite (strip_padding _ _ _ Hl Hr).
Qed.

Lemma transliterate_text_ignores_padding_witness :
  fst (run (transliterate_text
              (stub_world sample_paras
                 (replying (nl ++ py " " ++ py "x y" ++ py "  " ++ nl)))
              sample_config (py "Hello world")))
  = Ok (TransliterationResponse (py "Hello world") (py "x y")).
Proof.
  apply (transliterate_text_ignores_padding
           (stub_world sample_paras
              (replying (nl ++ py " " ++ py "x y" ++ py "  " ++ nl)))
           sample_config (py "Hello world") (nl ++ py " ") (py "x y")
           (py "  " ++ nl)).
  - discriminate.
  - reflexivity.
  - reflexivity.
  - eexists. split; reflexivity.
Defined.

(** ** The intended use of the fallback *)

Lemma strip_block (l tag body r : str) :
  forallb isspace l = true -> forallb isspace r = true ->
  strip (l ++ (fence ++ tag ++ body ++ fence) ++ r)
  = fence ++ tag ++ body ++ fence.
Proof.
  intros Hl Hr. rewrite (strip_padding _ _ _ Hl Hr).
  unfold strip. rewrite lstrip_fixed.
  - apply rstrip_fixed. intros rest c H.
    replace (fence ++ tag ++ body ++ fence)
      with ((fence ++ tag ++ body ++ [96%N; 96%N]) ++ [96%N]) in H
      by (rewrite <- !app_assoc; reflexivity).
    apply app_inj_tail in H as [_ <-]. reflexivity.
  - intros c rest [= <- _]. reflexivity.
Qed.

(** X13.  A reply that consists of one fenced block, with or without the tag
    [json] and with any white space around it, whose content decodes to
    a JSON object: the handler returns that object as the entities,
    after one failed and one successful call of [json.loads]. *)
Theorem fenced_reply_yields_entities (w : World) (cfg : Config)
        (file : UploadFile) (contents : list Byte.byte) (doc : DocumentObject)
        (l tag body r msg : str) (items : list (str * pyvalue)) :
  let block := fence ++ tag ++ body ++ fence in
  valid_docx w file contents doc ->
  oracle_replies w cfg (ner_prompt cfg (document_text doc)) (l ++ block ++ r) ->
  forallb isspace l = true -> forallb isspace r = true ->
  no_fence_starts_in body ->
  tag = json_tag \/ (tag = [] /\ untagged body) ->
  json_loads w block = Raise (JSONDecodeError msg) ->
  json_loads w (strip body) = Ok (PyDict items) ->
  run (extract_and_transliterate_ner w cfg file)
  = (Ok (NERResponse items),
     calls_before_parse contents (ner_prompt cfg (document_text doc))
     ++ [json_loads_call block; json_loads_call (strip body)]).
Proof.
  intros block Hv Ho Hl Hr Hbody Htag Hfail Hok.
  rewrite (ner_run _ _ _ _ _ _ Hv Ho).
  unfold block in *. rewrite (strip_block _ _ _ _ Hl Hr).
  assert (re_search pattern (fence ++ tag ++ body ++ fence)
          = Some (mkMatch [] (Some body) [])) as Hs.
  { unfold re_search.
    pose proof (re_search_from_block [] [] tag body [] eq_refl Hbody Htag) as H.
    change ([] ++ fence ++ tag ++ body ++ fence ++ [])
      with (fence ++ tag ++ body ++ fence ++ []) in H.
    by rewrite app_nil_r in H. }
  rewrite (parse_entities_block _ _ _ _ _ Hfail Hs).
  unfold group1. simpl default. by rewrite Hok.
Qed.

(** The scenario of the specification, with a newline after the
    block. *)
Lemma fenced_reply_yields_entities_witness :
  fst (run (extract_and_transliterate_ner
              (stub_world sample_paras
                 (replying ([] ++ (fence ++ json_tag ++ (nl ++ john_json ++ nl)
                                   ++ fence) ++ nl)))
              sample_config sample_docx))
  = Ok (NERResponse john_entities).
Proof.
  rewrite (fenced_reply_yields_entities
             (stub_world sample_paras
                (replying ([] ++ (fence ++ json_tag ++ (nl ++ john_json ++ nl)
                                  ++ fence) ++ nl)))
             sample_config sample_docx sample_contents sample_doc
             [] json_tag (nl ++ john_json ++ nl) nl
             (py "Expecting value: line 1 column 1 (char 0)") john_entities).
  - reflexivity.
  - repeat split.
  - eexists. split; reflexivity.
  - reflexivity.
  - reflexivity.
  - vm_compute. reflexivity.
  - by left.
  - vm_compute. reflexivity.
  - vm_compute. reflexivity.
Defined.

(** ** Instances *)

Lemma startup_succeeds_iff_witness : startup sample_environ = Ok sample_config.
Proof.
  apply (proj2 (startup_succeeds_iff sample_environ sample_config)).
  repeat split; (vm_compute; reflexivity) || discriminate.
Defined.

Lemma re_search_None_iff_witness :
  ~ exists a b c, fence ++ json_tag ++ py "{}" = a ++ fence ++ b ++ fence ++ c.
Proof.
  apply (proj1 (re_search_None_iff (fence ++ json_tag ++ py "{}"))).
  vm_compute. reflexivity.
Defined.

Lemma re_search_pattern_spec_witness :
  exists pre tag inner,
    two_blocks_reply
    = pre ++ fence ++ tag ++ inner ++ fence ++ (py " or " ++ fence ++ py "{}" ++ fence) /\
    py "Here: " = pre /\
    Some (nl ++ py "not json" ++ nl) = Some inner /\
    no_fence_starts_in pre /\
    no_fence_starts_in inner /\
    (tag = json_tag \/ (tag = [] /\ untagged inner)).
Proof.
  apply (proj1 (re_search_pattern_spec two_blocks_reply
                  (mkMatch (py "Here: ") (Some (nl ++ py "not json" ++ nl))
                     (py " or " ++ fence ++ py "{}" ++ fence)))).
  vm_compute. reflexivity.
Defined.

(** ** The statuses of [POST /transliterate/text], lines 60 to 77 *)


